(** * Signed recovery tokens of [password_reset/views.py]

    A shallow embedding of the password-recovery views: the helper
    [loads_with_timestamp] and the class-based views [RecoverDone],
    [Recover] and [Reset], together with the token codec, the clock, the
    mail outbox and the account table they act on. [Reset.form_valid],
    which only calls into the form class, and the template-only view
    [ResetDone] are left out.

    Conventions.
    - Wall-clock time is an integer number of microseconds since the epoch
      ([Time]); a token carries its issuance time in whole seconds, as
      [int(time.time())] does.
    - Every reading of the clock ([time.time()], [timezone.now()]) consumes
      the next entry of the sequence [clock] of the world; nothing forces
      that sequence to be monotone.
    - A Python call is a computation [M A]: it receives the world, and
      either returns a value or raises an exception, leaving a new world.
    - The mail sender may fail: the world says which mails it fails on
      and with what exception. *)

From stdpp Require Import base strings gmap list pretty.
From Stdlib Require Import ZArith Lia Ascii.

Local Open Scope Z_scope.

(** ** Python strings *)

Module Py.

(** [c in s] for a one-character [c]. *)
Fixpoint has_char (c : ascii) (s : string) : bool :=
  match s with
  | EmptyString => false
  | String a s' => if Ascii.eqb a c then true else has_char c s'
  end.

(** [s.split(sep)] for a non-empty separator, scanning left to right:
    [cur] is the piece being collected and [skip] counts the characters
    of a separator occurrence still to be passed over. *)
Fixpoint split_go (sep : string) (skip : nat) (cur s : string) : list string :=
  match s with
  | EmptyString => [cur]
  | String c s' =>
      match skip with
      | S k => split_go sep k cur s'
      | O =>
          if String.prefix sep s
          then cur :: split_go sep (Nat.pred (String.length sep)) "" s'
          else split_go sep 0 (cur +:+ String c "") s'
      end
  end.

Definition split (sep s : string) : list string := split_go sep 0 "" s.

(** [sep in s] for strings. *)
Fixpoint contains (sep s : string) : bool :=
  String.prefix sep s
  || match s with
     | EmptyString => false
     | String _ s' => contains sep s'
     end.

(** [s.rsplit(sep, 1)] for a one-character separator: [None] stands for
    the one-element list [[s]] (no separator in [s]), [Some (l, r)] for
    the two-element list [[l, r]] cut at the last separator. *)
Fixpoint rsplit1 (sep : ascii) (s : string) : option (string * string) :=
  match s with
  | EmptyString => None
  | String a s' =>
      match rsplit1 sep s' with
      | Some (l, r) => Some (String a l, r)
      | None => if Ascii.eqb a sep then Some ("", s') else None
      end
  end.

End Py.

(** ** Values, exceptions and the world *)

(** Microseconds since the epoch. *)
Definition Time : Type := Z.

Definition MICRO : Z := 1000000.

(** JSON-serializable payloads that the views put into tokens: a primary
    key or an identifier string. *)
Inductive pyval : Type :=
| PInt (n : Z)
| PStr (s : string).

Global Instance pyval_eq_dec : EqDecision pyval.
Proof. solve_decision. Defined.

(** Values stored in a template context. *)
Inductive ctxval : Type :=
| CTime (t : Time)
| CObj (v : pyval)
| CStr (s : string)
| CBool (b : bool).

Global Instance ctxval_eq_dec : EqDecision ctxval.
Proof. solve_decision. Defined.

(** [django.contrib.auth.models.User], reduced to the attributes read by
    the views. *)
Record User : Type := mkUser {
  pk : Z;
  username : string;
  email : string;
}.

Record HttpRequest : Type := mkRequest {
  get_host : string;
  is_secure : bool;
  get_full_path : string;
}.

(** The dictionary built by [Recover.get_email_context]. *)
Record EmailContext : Type := mkEmailContext {
  ec_site : string;
  ec_user : User;
  ec_token : string;
  ec_secure : bool;
}.

(** The keyword arguments of one [send_templated_mail] call. *)
Record Mail : Type := mkMail {
  mail_template : string;
  mail_from : string;
  mail_recipients : list string;
  mail_context : EmailContext;
}.

(** [reverse(name, args=[...])]: the URL configuration is not part of the
    views, so a reversed URL is kept symbolic. *)
Record Url : Type := reverse {
  url_name : string;
  url_args : list string;
}.

Inductive HttpResponse : Type :=
| HttpResponseRedirect (location : Url)
| TemplateResponse (template : string) (context : gmap string ctxval).

(** Exceptions. [SignatureExpired] is a subclass of [BadSignature] and
    carries its message. *)
Inductive exn : Type :=
| BadSignature
| SignatureExpired (msg : string)
| Http404
| TypeError
| ValueError
| IndexError
| KeyError
| AttributeError
| SMTPException.

(** [isinstance(e, signing.BadSignature)] *)
Definition is_BadSignature (e : exn) : bool :=
  match e with
  | BadSignature | SignatureExpired _ => true
  | _ => false
  end.

Record World : Type := mkWorld {
  clock : nat → Time;       (* the successive readings of the wall clock *)
  reads : nat;              (* how many readings were consumed *)
  outbox : list Mail;       (* mails handed to the mail sender, oldest first *)
  users : list User;        (* the account table *)
  mailer : Mail → option exn;
                            (* what the mail sender raises on a mail it
                               fails to send; [None] when it takes it *)
}.

Inductive outcome (A : Type) : Type :=
| Return (a : A)
| Raise (e : exn).
Global Arguments Return {A} a.
Global Arguments Raise {A} e.

Definition M (A : Type) : Type := World → outcome A * World.

Global Instance M_ret : MRet M := λ A a w, (Return a, w).

Global Instance M_bind : MBind M := λ A B f m w,
  match m w with
  | (Return a, w') => f a w'
  | (Raise e, w') => (Raise e, w')
  end.

Definition raise {A} (e : exn) : M A := λ w, (Raise e, w).

(** [try: body / except <classes>: handler]: [handler e] is [None] when
    no [except] clause matches [e], which then propagates. The handler
    runs outside the [try]. *)
Definition try_except {A} (body : M A) (handler : exn → option (M A)) : M A :=
  λ w,
    match body w with
    | (Return a, w') => (Return a, w')
    | (Raise e, w') =>
        match handler e with
        | Some h => h w'
        | None => (Raise e, w')
        end
    end.

(** The world after one more reading of the clock. *)
Definition tick (w : World) : World :=
  mkWorld (clock w) (S (reads w)) (outbox w) (users w) (mailer w).

(** The reading that the next clock access returns. *)
Definition next_reading (w : World) : Time := clock w (reads w).

(** [time.time()] and [timezone.now()] both read the wall clock. *)
Definition time_time : M Time := λ w, (Return (next_reading w), tick w).

Definition timezone_now : M Time := time_time.

(** [l[i]] on a list *)
Definition getitem {A} (l : list A) (i : nat) : M A :=
  match l !! i with
  | Some x => mret x
  | None => raise IndexError
  end.

(** [d[k]] on a dictionary *)
Definition getkey {A} (d : gmap string A) (k : string) : M A :=
  match d !! k with
  | Some x => mret x
  | None => raise KeyError
  end.

(** Reading an instance attribute that may not have been assigned yet. *)
Definition getattr {A} (a : option A) : M A :=
  match a with
  | Some x => mret x
  | None => raise AttributeError
  end.

(** ** The platform underneath the views

    The settings, the keyed hash, the payload serializer, the base-62
    timestamp codec and Python's float formatting are reached only through
    names the views import; the embedding takes them as an interface.
    [PlatformLaws] below states what the proofs need from them. *)
Class Platform : Type := {
  (* settings.SECRET_KEY and settings.DEFAULT_FROM_EMAIL *)
  SECRET_KEY : string;
  DEFAULT_FROM_EMAIL : string;
  (* url-safe keyed digest of [value] under [salt] and [secret] *)
  salted_hmac : ∀ (salt value secret : string), string;
  (* url-safe text of a JSON-serializable payload, and its inverse *)
  serialize : pyval → string;
  deserialize : string → option pyval;
  (* base-62 text of an integer, and its inverse *)
  b62_encode : Z → string;
  b62_decode : string → option Z;
  (* ['%s' % x] and [float(s)] for a number of seconds, held in
     microseconds *)
  str_of_float : Z → string;
  float_of_str : string → option Z;
}.

(** ** [django.core.signing] *)

(** Modelled from the spec: the three-way result of verifying a token,
    VerificationOutcome. [issuedAt] is in whole seconds. *)
Inductive VerificationOutcome : Type :=
| Valid (payload : pyval) (issuedAt : Z)
| ExpiredButAuthentic (payload : pyval) (issuedAt : Z)
| Invalid.

Module signing.
Section signing.
Context {P : Platform}.

(** Modelled from the spec: [django.core.signing] is imported by the
    views and is not among the sources. A token is one string composed
    of the encoded payload, the encoded issuance timestamp and a
    signature, here joined by [":"]; the signature authenticates
    (payload, timestamp) under the salt and the process secret. *)
Definition signature (salt value : string) : string :=
  salted_hmac salt value SECRET_KEY.

(** Modelled from the spec: the issuance timestamp embedded in a token
    made at clock reading [now], in whole seconds. *)
Definition timestamp (now : Time) : Z := now `quot` MICRO.

(** Modelled from the spec: the token that sign(payload, salt) makes
    when the clock reads [now]. *)
Definition sign_at (now : Time) (salt : string) (obj : pyval) : string :=
  let value := serialize obj +:+ ":" +:+ b62_encode (timestamp now) in
  value +:+ ":" +:+ signature salt value.

(** Modelled from the spec: [signing.dumps(obj, salt=salt)], that is
    sign(payload, salt): serialize the payload, capture the current
    time, sign, concatenate. *)
Definition dumps (obj : pyval) (salt : string) : M string :=
  now ← time_time;
  mret (sign_at now salt obj).

(** Modelled from the spec: the first step of verify. Split a token into
    payload, timestamp and signature; [None] when it is malformed or the
    signature does not authenticate under [salt]. *)
Definition unsign (s salt : string) : option (pyval * Z) :=
  '(value, sig) ← Py.rsplit1 ":" s;
  if decide (sig = signature salt value) then
    '(data, ts) ← Py.rsplit1 ":" value;
    issued ← b62_decode ts;
    payload ← deserialize data;
    Some (payload, issued)
  else None.

(** Modelled from the spec: now - issuedAt, the age in microseconds at
    clock reading [now] of a token issued at second [issued]. *)
Definition age (now : Time) (issued : Z) : Z := now - issued * MICRO.

(** Modelled from the spec: verify(token, salt, maxAgeSeconds?) of the
    token codec, at clock reading [now]. *)
Definition verify (s salt : string) (max_age : option Z) (now : Time)
  : VerificationOutcome :=
  match unsign s salt with
  | None => Invalid
  | Some (payload, issued) =>
      match max_age with
      | Some m =>
          if age now issued >? m * MICRO
          then ExpiredButAuthentic payload issued
          else Valid payload issued
      | None => Valid payload issued
      end
  end.

(** Modelled from the spec: the text of the expiry failure,
    ['Signature age %s > %s seconds' % (age, max_age)]. *)
Definition expired_message (a : Z) (max_age : option Z) : string :=
  "Signature age " +:+ str_of_float a +:+ " > "
    +:+ from_option pretty "None" max_age +:+ " seconds".

(** Modelled from the spec: [signing.loads(s, salt=salt,
    max_age=max_age)] surfaces the outcome of verify the way the
    framework does: the payload is returned when [Valid], [Invalid]
    raises [BadSignature], and [ExpiredButAuthentic] raises its subclass
    [SignatureExpired], whose message states the age. Each call reads the
    clock once. *)
Definition loads (s salt : string) (max_age : option Z) : M pyval :=
  now ← time_time;
  match verify s salt max_age now with
  | Valid payload _ => mret payload
  | ExpiredButAuthentic _ issued =>
      raise (SignatureExpired (expired_message (age now issued) max_age))
  | Invalid => raise BadSignature
  end.

End signing.
End signing.

(** ** [password_reset/views.py] *)

(** [class SaltMixin] *)
Module SaltMixin.
Definition salt : string := "password_recovery".
Definition url_salt : string := "password_recovery_url".
End SaltMixin.

(** [float(s)] *)
Definition float {P : Platform} (s : string) : M Z :=
  match float_of_str s with
  | Some a => mret a
  | None => raise ValueError
  end.

(** [age = float(str(e).split('Signature age ')[1].split(' >')[0])] *)
Definition parse_age {P : Platform} (msg : string) : M Z :=
  rest ← getitem (Py.split "Signature age " msg) 1;
  text ← getitem (Py.split " >" rest) 0;
  float text.

(** [def loads_with_timestamp(value, salt)]. The result is [None] when the
    body ends without reaching a [return]. *)
Definition loads_with_timestamp {P : Platform} (value salt : string)
  : M (option (Time * pyval)) :=
  try_except
    (_ ← signing.loads value salt (Some (-1));
     mret None)
    (λ e,
       match e with
       | SignatureExpired msg => Some (
           age ← parse_age msg;
           now ← timezone_now;
           let timestamp := now - age in
           payload ← signing.loads value salt None;
           mret (Some (timestamp, payload)))
       | _ => None
       end).

(** The base [get_context_data] of the generic views hands its
    keyword arguments back as the context. *)
Definition ContextMixin_get_context_data (kwargs : gmap string ctxval)
  : gmap string ctxval := kwargs.

(** [class RecoverDone(SaltMixin, generic.TemplateView)] *)
Module RecoverDone.
Record t : Type := mk {
  fail_noexistent_user : bool;
  template_name : string;
  kwargs : gmap string string;     (* self.kwargs, from the URL *)
}.

(** The class attributes, for a request with URL arguments [kw]. *)
Definition as_view (kw : gmap string string) : t :=
  mk true "password_reset/reset_sent.html" kw.

Definition get_context_data {P : Platform} (self : t)
    (kw : gmap string ctxval) : M (gmap string ctxval) :=
  let ctx := ContextMixin_get_context_data kw in
  try_except
    (sig ← getkey (kwargs self) "signature";
     r ← loads_with_timestamp sig SaltMixin.url_salt;
     match r with
     | Some (timestamp, email) =>
         mret (<["email" := CObj email]>
                 (<["timestamp" := CTime timestamp]> ctx))
     | None => raise TypeError      (* unpacking [None] *)
     end)
    (λ e,
       if is_BadSignature e
       then Some (if fail_noexistent_user self
                  then raise Http404
                  else mret ctx)
       else None).
End RecoverDone.

(** Values handed to a form class as keyword arguments. *)
Inductive formval : Type :=
| FBool (b : bool)
| FFields (l : list string)
| FUser (u : User)
| FData (s : string).

(** [form.cleaned_data] of a validated [PasswordRecoveryForm]: the account
    the form found, if any, and the text the visitor typed. *)
Record RecoveryForm : Type := mkForm {
  cleaned_user : option User;
  cleaned_username_or_email : string;
}.

(** Modelled from the spec: [password_reset.mail.send_templated_mail] is
    not among the sources. It is the mail sender
    send(template, fromAddress, toAddress, context) → Success/Failure.
    On success the message is handed over, once; a failure surfaces to
    the caller as the exception the sender raises, and nothing is handed
    over. *)
Definition send_templated_mail (email_template from_email : string)
    (recipient_list : list string) (context : EmailContext) : M unit :=
  λ w,
    let mail := mkMail email_template from_email recipient_list context in
    match mailer w mail with
    | None =>
        (Return (),
         mkWorld (clock w) (reads w) (outbox w ++ [mail]) (users w)
           (mailer w))
    | Some e => (Raise e, w)
    end.

(** [class Recover(SaltMixin, generic.FormView)] *)
Module Recover.
Record t : Type := mk {
  case_sensitive : bool;
  template_name : string;
  email_template : string;
  search_fields : list string;
  fail_noexistent_user : bool;
  request : HttpRequest;
  user : option User;              (* self.user, once assigned *)
  mail_signature : option string;  (* self.mail_signature, once assigned *)
}.

(** The class attributes, for request [rq]. *)
Definition as_view (rq : HttpRequest) : t :=
  mk true "password_reset/recovery_form.html"
     "password_reset/recovery_letter.html"
     ["username"; "email"] true rq None None.

Definition set_user (self : t) (u : option User) : t :=
  mk (case_sensitive self) (template_name self) (email_template self)
     (search_fields self) (fail_noexistent_user self) (request self)
     u (mail_signature self).

Definition set_mail_signature (self : t) (s : string) : t :=
  mk (case_sensitive self) (template_name self) (email_template self)
     (search_fields self) (fail_noexistent_user self) (request self)
     (user self) (Some s).

Definition get_success_url (self : t) : M Url :=
  sig ← getattr (mail_signature self);
  mret (reverse "password_reset_sent" [sig]).

Definition get_context_data (self : t) (kw : gmap string ctxval)
  : gmap string ctxval :=
  ContextMixin_get_context_data
    (<["url" := CStr (get_full_path (request self))]> kw).

(** [base] is what the [get_form_kwargs] of the generic form view
    returns. *)
Definition get_form_kwargs (self : t) (base : gmap string formval)
  : gmap string formval :=
  <["fail_noexistent_user" := FBool (fail_noexistent_user self)]>
    (<["search_fields" := FFields (search_fields self)]>
       (<["case_sensitive" := FBool (case_sensitive self)]> base)).

Definition get_email_context {P : Platform} (self : t) : M EmailContext :=
  u ← getattr (user self);
  token ← signing.dumps (PInt (pk u)) SaltMixin.salt;
  mret (mkEmailContext (get_host (request self)) u token
          (is_secure (request self))).

Definition send_notification {P : Platform} (self : t) : M unit :=
  u ← getattr (user self);
  context ← get_email_context self;
  send_templated_mail (email_template self) DEFAULT_FROM_EMAIL
    [email u] context.

(** The keyword arguments with which [send_notification] calls the mail
    sender for account [u] when the clock reads [now]. *)
Definition notification {P : Platform} (self : t) (u : User) (now : Time)
  : Mail :=
  mkMail (email_template self) DEFAULT_FROM_EMAIL [email u]
    (mkEmailContext (get_host (request self)) u
       (signing.sign_at now SaltMixin.salt (PInt (pk u)))
       (is_secure (request self))).

(** [len(self.search_fields) == 1 and self.search_fields[0] == 'username'] *)
Definition only_username (fields : list string) : bool :=
  bool_decide (length fields = 1%nat)
  && bool_decide (fields !! 0%nat = Some "username").

(** [FormView.form_valid]: redirect to [self.get_success_url()]. *)
Definition FormMixin_form_valid (self : t) : M HttpResponse :=
  url ← get_success_url self;
  mret (HttpResponseRedirect url).

(** The response, and the view instance as the method leaves it. *)
Definition form_valid {P : Platform} (self : t) (form : RecoveryForm)
  : M (HttpResponse * t) :=
  let self := set_user self (cleaned_user form) in
  self ←
    match user self with
    | Some u =>
        _ ← send_notification self;
        let email :=
          if only_username (search_fields self)
          then username u
          else email u in
        sig ← signing.dumps (PStr email) SaltMixin.url_salt;
        mret (set_mail_signature self sig)
    | None =>
        sig ← signing.dumps (PStr (cleaned_username_or_email form))
                "fake-send";
        mret (set_mail_signature self sig)
    end;
  response ← FormMixin_form_valid self;
  mret (response, self).
End Recover.

(** [get_object_or_404(User, pk=pk)]: the account with that primary key,
    else [Http404]. Primary keys are integers; a payload of another type
    does not convert to one. *)
Definition get_object_or_404 (key : pyval) : M User :=
  λ w,
    match key with
    | PInt n =>
        match List.find (λ u, bool_decide (pk u = n)) (users w) with
        | Some u => (Return u, w)
        | None => (Raise Http404, w)
        end
    | PStr _ => (Raise ValueError, w)
    end.

(** [class Reset(SaltMixin, generic.FormView)] *)
Module Reset.
Record t : Type := mk {
  token_expires : Z;
  template_name : string;
  request : option HttpRequest;
  kwargs : gmap string string;
  user : option User;
}.

(** The class attributes of a fresh instance. *)
Definition as_view : t :=
  mk (3600 * 48) "password_reset/reset.html" None ∅ None.

Definition set_request (self : t) (rq : HttpRequest)
    (kw : gmap string string) : t :=
  mk (token_expires self) (template_name self) (Some rq) kw (user self).

Definition set_user (self : t) (u : User) : t :=
  mk (token_expires self) (template_name self) (request self)
     (kwargs self) (Some u).

Definition get_context_data (self : t) (kw : gmap string ctxval)
  : M (gmap string ctxval) :=
  let ctx := ContextMixin_get_context_data kw in
  if bool_decide (is_Some (ctx !! "invalid"))
  then mret ctx
  else
    u ← getattr (user self);
    token ← getkey (kwargs self) "token";
    mret (<["token" := CStr token]>
            (<["username" := CStr (username u)]> ctx)).

(** [base] is what the [get_form_kwargs] of the generic form view
    returns. *)
Definition get_form_kwargs (self : t) (base : gmap string formval)
  : M (gmap string formval) :=
  u ← getattr (user self);
  mret (<["user" := FUser u]> base).

Definition render_to_response (self : t) (ctx : gmap string ctxval)
  : HttpResponse :=
  TemplateResponse (template_name self) ctx.

Definition invalid (self : t) : M HttpResponse :=
  ctx ← get_context_data self {["invalid" := CBool true]};
  mret (render_to_response self ctx).

Section dispatch.
Context {P : Platform}.
(** [super(Reset, self).dispatch]: the generic form view, entered with
    [self.user] assigned. *)
Variable View_dispatch : t → HttpRequest → M HttpResponse.

Definition dispatch (self : t) (rq : HttpRequest)
    (kw : gmap string string) : M HttpResponse :=
  let self := set_request self rq kw in
  r ← try_except
        (token ← getkey kw "token";
         pk ← signing.loads token SaltMixin.salt
                (Some (token_expires self));
         mret (inl pk))
        (λ e,
           if is_BadSignature e
           then Some (response ← invalid self; mret (inr response))
           else None);
  match r with
  | inr response => mret response
  | inl pk =>
      u ← get_object_or_404 pk;
      View_dispatch (set_user self u) rq
  end.
End dispatch.
End Reset.

(** ** What the proofs assume of the platform *)

(** The codecs invert each other and produce text free of the characters
    that delimit a token or an expiry message: url-safe digests and
    base-62 numerals hold no [":"], a formatted number holds neither a
    space nor an ["S"]. Formatting a number and parsing it back is taken
    to be exact. *)
Class PlatformLaws (P : Platform) : Prop := {
  hmac_urlsafe : ∀ salt value secret,
    Py.has_char ":" (salted_hmac salt value secret) = false;
  deserialize_serialize : ∀ obj, deserialize (serialize obj) = Some obj;
  b62_urlsafe : ∀ n, Py.has_char ":" (b62_encode n) = false;
  b62_decode_encode : ∀ n, b62_decode (b62_encode n) = Some n;
  str_of_float_no_space : ∀ a, Py.has_char " " (str_of_float a) = false;
  str_of_float_no_S : ∀ a, Py.has_char "S" (str_of_float a) = false;
  float_of_str_of_float : ∀ a, float_of_str (str_of_float a) = Some a;
}.

(** The keyed hash never gives one digest to one value under two salts:
    the collision-freeness that domain separation rests on. *)
Definition SaltSeparation (P : Platform) : Prop :=
  ∀ salt1 salt2 value,
    salted_hmac salt1 value SECRET_KEY = salted_hmac salt2 value SECRET_KEY →
    salt1 = salt2.

(** ** A small platform to run the views on

    Numbers are written in binary, least significant bit first; the keyed
    hash spells out the bits of its three inputs. It obeys the laws above
    and makes the views executable. A second platform differs only in its
    keyed hash, which leaves the salt out. *)
Module Toy.

Fixpoint pos_text (p : positive) : string :=
  match p with
  | xH => "1"
  | xO q => String "0" (pos_text q)
  | xI q => String "1" (pos_text q)
  end.

Fixpoint text_pos (s : string) : option positive :=
  match s with
  | EmptyString => None
  | String c EmptyString => if Ascii.eqb c "1" then Some xH else None
  | String c s' =>
      match text_pos s' with
      | Some q =>
          if Ascii.eqb c "0" then Some (xO q)
          else if Ascii.eqb c "1" then Some (xI q)
          else None
      | None => None
      end
  end.

Definition int_text (n : Z) : string :=
  match n with
  | Z0 => "0"
  | Zpos p => pos_text p
  | Zneg p => String "-" (pos_text p)
  end.

Definition text_int (s : string) : option Z :=
  match s with
  | String "0" EmptyString => Some 0
  | String "-" s' => Z.neg <$> text_pos s'
  | _ => Z.pos <$> text_pos s
  end.

Definition bit (b : bool) : ascii := if b then "1"%char else "0"%char.

Fixpoint bits (s : string) : string :=
  match s with
  | EmptyString => EmptyString
  | String (Ascii b0 b1 b2 b3 b4 b5 b6 b7) s' =>
      String (bit b0) (String (bit b1) (String (bit b2) (String (bit b3)
        (String (bit b4) (String (bit b5) (String (bit b6) (String (bit b7)
          (bits s'))))))))
  end.

Definition hmac (salt value secret : string) : string :=
  bits secret +:+ "." +:+ bits value +:+ "." +:+ bits salt.

Definition dump (obj : pyval) : string :=
  match obj with
  | PInt n => String "i" (int_text n)
  | PStr s => String "s" s
  end.

Definition load (s : string) : option pyval :=
  match s with
  | String "i" s' => PInt <$> text_int s'
  | String "s" s' => Some (PStr s')
  | _ => None
  end.

Definition platform : Platform := {|
  SECRET_KEY := "not-a-secret";
  DEFAULT_FROM_EMAIL := "webmaster@localhost";
  salted_hmac := hmac;
  serialize := dump;
  deserialize := load;
  b62_encode := int_text;
  b62_decode := text_int;
  str_of_float := int_text;
  float_of_str := text_int;
|}.



(** The generic form view answering a GET: the form page, rendered with
    the context of the view. *)
Definition form_view (self : Reset.t) (rq : HttpRequest) : M HttpResponse :=
  ctx ← Reset.get_context_data self ∅;
  mret (Reset.render_to_response self ctx).

(** A world whose clock reads [t0], [t1], [t2] and then stays at [t2],
    and whose mail sender takes every mail. *)
Definition world (t0 t1 t2 : Time) (db : list User) : World :=
  mkWorld (λ i, match i with O => t0 | S O => t1 | _ => t2 end) 0 [] db
    (λ _, None).

(** The same world with the mail sender down: every mail fails. *)
Definition world_mail_down (t0 t1 t2 : Time) (db : list User) : World :=
  mkWorld (λ i, match i with O => t0 | S O => t1 | _ => t2 end) 0 [] db
    (λ _, Some SMTPException).

End Toy.

(** * Proofs *)

(** ** Facts on the string operations *)

Module PyFacts.

Example split_commas : Py.split "," "a,b,,c," = ["a"; "b"; ""; "c"; ""].
Proof. reflexivity. Qed.

Example split_overlapping : Py.split "aa" "aaa" = [""; "a"].
Proof. reflexivity. Qed.

Example split_expiry_message :
  Py.split " >" <$> Py.split "Signature age " "Signature age 12.5 > -1 seconds"
  = [[""]; ["12.5"; " -1 seconds"]].
Proof. reflexivity. Qed.

Example rsplit1_two_colons : Py.rsplit1 ":" "a:b:c" = Some ("a:b", "c").
Proof. reflexivity. Qed.

Example rsplit1_no_colon : Py.rsplit1 ":" "abc" = None.
Proof. reflexivity. Qed.

Lemma app_cons a s t : String a s +:+ t = String a (s +:+ t).
Proof. reflexivity. Qed.

Lemma app_empty_l s : "" +:+ s = s.
Proof. reflexivity. Qed.

Lemma app_empty_r s : s +:+ "" = s.
Proof. induction s as [|a s IH]; [done|]. by rewrite app_cons, IH. Qed.

Lemma app_assoc s t u : (s +:+ t) +:+ u = s +:+ (t +:+ u).
Proof.
  induction s as [|a s IH]; [reflexivity|].
  rewrite !app_cons. by rewrite IH.
Qed.

Lemma has_char_cons c a s :
  Py.has_char c (String a s) = false ↔ a ≠ c ∧ Py.has_char c s = false.
Proof.
  simpl. destruct (Ascii.eqb_spec a c) as [->|Hne].
  - split; [done|]. by intros [? _].
  - split; [done|]. by intros [_ ?].
Qed.

Lemma has_char_app c s t :
  Py.has_char c (s +:+ t) = Py.has_char c s || Py.has_char c t.
Proof.
  induction s as [|a s IH]; [reflexivity|].
  rewrite app_cons. simpl. by destruct (Ascii.eqb a c).
Qed.

(** No separator, nothing to cut. *)
Lemma rsplit1_absent c s :
  Py.has_char c s = false → Py.rsplit1 c s = None.
Proof.
  induction s as [|a s IH]; [done|].
  intros [Hne Hs]%has_char_cons. simpl. rewrite (IH Hs).
  by destruct (Ascii.eqb_spec a c).
Qed.

(** The cut falls at the last separator. *)
Lemma rsplit1_last c l r :
  Py.has_char c r = false →
  Py.rsplit1 c (l +:+ String c r) = Some (l, r).
Proof.
  intros Hr. induction l as [|a l IH].
  - rewrite app_empty_l. simpl. rewrite (rsplit1_absent _ _ Hr).
    by rewrite Ascii.eqb_refl.
  - rewrite app_cons. simpl. by rewrite IH.
Qed.

(** Whatever [rsplit1] returns reassembles to the input. *)
Lemma rsplit1_join c s l r :
  Py.rsplit1 c s = Some (l, r) →
  s = l +:+ String c r ∧ Py.has_char c r = false.
Proof.
  revert l. induction s as [|a s IH]; intros l; [done|].
  simpl. destruct (Py.rsplit1 c s) as [[l' r']|] eqn:E.
  - intros [= <- <-]. destruct (IH l' eq_refl) as [-> Hr]. done.
  - destruct (Ascii.eqb_spec a c) as [->|]; [|done].
    intros [= <- <-]. split; [done|].
    clear IH. induction s as [|b s IHs]; [done|].
    simpl in E. destruct (Py.rsplit1 c s) as [[??]|]; [done|].
    simpl. destruct (Ascii.eqb b c); [done|]. by apply IHs.
Qed.

Lemma prefix_app s t : String.prefix s (s +:+ t) = true.
Proof.
  induction s as [|a s IH]; [by destruct t|].
  rewrite app_cons. simpl. by destruct (ascii_dec a a).
Qed.

Lemma prefix_other c0 sep a s :
  a ≠ c0 → String.prefix (String c0 sep) (String a s) = false.
Proof. intros Hne. simpl. by destruct (ascii_dec c0 a) as [->|]. Qed.

Lemma split_go_0 sep cur c s :
  Py.split_go sep 0 cur (String c s)
  = if String.prefix sep (String c s)
    then cur :: Py.split_go sep (Nat.pred (String.length sep)) "" s
    else Py.split_go sep 0 (cur +:+ String c "") s.
Proof. reflexivity. Qed.

(** Passing over the rest of a separator occurrence. *)
Lemma split_go_skip sep p cur t :
  Py.split_go sep (String.length p) cur (p +:+ t) = Py.split_go sep 0 cur t.
Proof.
  induction p as [|a p IH]; [by destruct t|].
  rewrite app_cons. simpl. apply IH.
Qed.

(** A separator at the scanning position closes the current piece. *)
Lemma split_go_sep c0 sep cur t :
  Py.split_go (String c0 sep) 0 cur (String c0 sep +:+ t)
  = cur :: Py.split_go (String c0 sep) 0 "" t.
Proof.
  rewrite app_cons, split_go_0, <- app_cons, prefix_app.
  simpl Nat.pred. by rewrite split_go_skip.
Qed.

(** Text without the separator's first character joins the current
    piece. *)
Lemma split_go_text c0 sep a cur t :
  Py.has_char c0 a = false →
  Py.split_go (String c0 sep) 0 cur (a +:+ t)
  = Py.split_go (String c0 sep) 0 (cur +:+ a) t.
Proof.
  revert cur. induction a as [|x a IH]; intros cur.
  - intros _. by rewrite app_empty_l, app_empty_r.
  - intros [Hne Ha]%has_char_cons.
    rewrite app_cons, split_go_0, (prefix_other _ _ _ _ Hne), (IH _ Ha).
    by rewrite app_assoc.
Qed.

(** The first piece extends the piece under collection. *)
Lemma split_go_head sep t cur :
  ∃ x rest, Py.split_go sep 0 cur t = (cur +:+ x) :: rest.
Proof.
  revert cur. induction t as [|a t IH]; intros cur.
  - exists "", []. by rewrite app_empty_r.
  - rewrite split_go_0. destruct (String.prefix sep (String a t)).
    + eexists "", _. by rewrite app_empty_r.
    + destruct (IH (cur +:+ String a "")) as (x & rest & ->).
      exists (String a x), rest. by rewrite app_assoc.
Qed.

(** [(sep + a + t).split(sep)[1]] starts with [a] when [a] is free of
    the separator's first character. *)
Lemma split_second c0 sep a t :
  Py.has_char c0 a = false →
  ∃ x, Py.split (String c0 sep) (String c0 sep +:+ a +:+ t) !! 1%nat
       = Some (a +:+ x).
Proof.
  intros Ha. unfold Py.split. rewrite split_go_sep, (split_go_text _ _ _ _ _ Ha).
  destruct (split_go_head (String c0 sep) t ("" +:+ a)) as (x & rest & ->).
  exists x. reflexivity.
Qed.

(** [(a + sep + t).split(sep)[0]] is [a] when [a] is free of the
    separator's first character. *)
Lemma split_first c0 sep a t :
  Py.has_char c0 a = false →
  Py.split (String c0 sep) (a +:+ String c0 sep +:+ t) !! 0%nat = Some a.
Proof.
  intros Ha. unfold Py.split.
  by rewrite (split_go_text _ _ _ _ _ Ha), split_go_sep.
Qed.

End PyFacts.

(** ** Running computations *)

Lemma run_bind {A B} (m : M A) (f : A → M B) (w : World) :
  (m ≫= f) w
  = match m w with
    | (Return a, w') => f a w'
    | (Raise e, w') => (Raise e, w')
    end.
Proof. reflexivity. Qed.

Lemma run_ret {A} (a : A) (w : World) : @mret M _ A a w = (Return a, w).
Proof. reflexivity. Qed.

Lemma run_raise {A} (e : exn) (w : World) : raise (A:=A) e w = (Raise e, w).
Proof. reflexivity. Qed.

Lemma run_time_time (w : World) : time_time w = (Return (next_reading w), tick w).
Proof. reflexivity. Qed.

Lemma run_try_except {A} (body : M A) (handler : exn → option (M A)) w :
  try_except body handler w
  = match body w with
    | (Return a, w') => (Return a, w')
    | (Raise e, w') =>
        match handler e with
        | Some h => h w'
        | None => (Raise e, w')
        end
    end.
Proof. reflexivity. Qed.

Lemma getitem_Some {A} (l : list A) (i : nat) (x : A) :
  l !! i = Some x → getitem l i = mret x.
Proof. unfold getitem. by intros ->. Qed.

Lemma getkey_Some {A} (d : gmap string A) (k : string) (x : A) :
  d !! k = Some x → getkey d k = mret x.
Proof. unfold getkey. by intros ->. Qed.

(** Step through binds, returns, raises and clock readings. *)
Ltac run :=
  repeat (rewrite ?run_bind, ?run_ret, ?run_raise, ?run_time_time;
          cbn beta iota).

(** ** Facts on the token codec *)

Section SigningFacts.
Context {P : Platform} {Laws : PlatformLaws P}.

Lemma sign_at_parts (t0 : Time) (salt : string) (obj : pyval) :
  let value :=
    serialize obj +:+ String ":" (b62_encode (signing.timestamp t0)) in
  signing.sign_at t0 salt obj
  = value +:+ String ":" (signing.signature salt value).
Proof. reflexivity. Qed.

(** A token made under [salt] splits back, under [salt], into its
    payload and its issuance second. *)
Lemma unsign_sign_at (t0 : Time) (salt : string) (obj : pyval) :
  signing.unsign (signing.sign_at t0 salt obj) salt
  = Some (obj, signing.timestamp t0).
Proof.
  rewrite sign_at_parts. cbv zeta. unfold signing.unsign.
  rewrite (PyFacts.rsplit1_last ":"); [|apply hmac_urlsafe]. cbn [mbind option_bind].
  rewrite decide_True by reflexivity.
  rewrite (PyFacts.rsplit1_last ":"); [|apply b62_urlsafe]. cbn [mbind option_bind].
  rewrite b62_decode_encode. cbn [mbind option_bind].
  by rewrite deserialize_serialize.
Qed.

(** Under a collision-free keyed hash, a token made under one salt does
    not authenticate under another. *)
Lemma unsign_other_salt (t0 : Time) (salt1 salt2 : string) (obj : pyval) :
  SaltSeparation P → salt1 ≠ salt2 →
  signing.unsign (signing.sign_at t0 salt1 obj) salt2 = None.
Proof.
  intros Hsep Hne. rewrite sign_at_parts. cbv zeta. unfold signing.unsign.
  rewrite (PyFacts.rsplit1_last ":"); [|apply hmac_urlsafe]. cbn [mbind option_bind].
  rewrite decide_False; [done|].
  intros Heq. by apply Hne, (Hsep _ _ _ Heq).
Qed.

(** The age is read back from the message of [SignatureExpired]. *)
Lemma parse_age_expired_message (a : Z) (max_age : option Z) (w : World) :
  parse_age (signing.expired_message a max_age) w = (Return a, w).
Proof.
  unfold parse_age, signing.expired_message.
  set (tail := from_option pretty "None" max_age +:+ " seconds").
  destruct (PyFacts.split_second "S" "ignature age " (str_of_float a +:+ " >")
              (String " " tail)) as [x Hx].
  { rewrite PyFacts.has_char_app, str_of_float_no_S. reflexivity. }
  assert (Hmsg : "Signature age " +:+ str_of_float a +:+ " > " +:+ tail
                 = "Signature age " +:+ (str_of_float a +:+ " >")
                     +:+ String " " tail).
  { by rewrite PyFacts.app_assoc. }
  rewrite Hmsg, (getitem_Some _ _ _ Hx). run.
  rewrite PyFacts.app_assoc.
  rewrite (getitem_Some _ _ _
             (PyFacts.split_first " " ">" (str_of_float a) x
                (str_of_float_no_space a))).
  run. unfold float. by rewrite float_of_str_of_float.
Qed.

End SigningFacts.

(** ** Facts on [signing.loads] and [loads_with_timestamp] *)

Section LoadsFacts.
Context {P : Platform}.

Lemma run_loads (s salt : string) (max_age : option Z) (w : World) :
  signing.loads s salt max_age w
  = match signing.verify s salt max_age (next_reading w) with
    | Valid payload _ => (Return payload, tick w)
    | ExpiredButAuthentic _ issued =>
        (Raise (SignatureExpired
                  (signing.expired_message
                     (signing.age (next_reading w) issued) max_age)),
         tick w)
    | Invalid => (Raise BadSignature, tick w)
    end.
Proof.
  unfold signing.loads. run.
  by destruct (signing.verify s salt max_age (next_reading w)).
Qed.

Lemma verify_Invalid (s salt : string) (max_age : option Z) (t : Time) :
  signing.verify s salt max_age t = Invalid ↔ signing.unsign s salt = None.
Proof.
  unfold signing.verify.
  destruct (signing.unsign s salt) as [[payload issued]|]; [|done].
  destruct max_age as [m|]; [|done].
  by destruct (signing.age t issued >? m * MICRO).
Qed.

Lemma verify_authentic (s salt : string) (max_age : option Z) (t : Time)
    (payload : pyval) (issued : Z) :
  signing.unsign s salt = Some (payload, issued) →
  signing.verify s salt max_age t
  = match max_age with
    | Some m =>
        if signing.age t issued >? m * MICRO
        then ExpiredButAuthentic payload issued
        else Valid payload issued
    | None => Valid payload issued
    end.
Proof. unfold signing.verify. by intros ->. Qed.

(** Whatever verify says of a token that is not [Invalid], the token
    splits into that payload and issuance second. *)
Lemma verify_unsign (s salt : string) (max_age : option Z) (t : Time)
    (payload : pyval) (issued : Z) :
  signing.verify s salt max_age t = Valid payload issued
  ∨ signing.verify s salt max_age t = ExpiredButAuthentic payload issued →
  signing.unsign s salt = Some (payload, issued).
Proof.
  unfold signing.verify.
  destruct (signing.unsign s salt) as [[p i]|]; [|by intros [?|?]].
  destruct max_age as [m|]; [destruct (signing.age t i >? m * MICRO)|];
    intros [?|?]; congruence.
Qed.

(** [BadSignature] is not what the [except] clause names: it leaves
    [loads_with_timestamp] as it came. *)
Lemma loads_with_timestamp_invalid (value salt : string) (w : World) :
  signing.unsign value salt = None →
  loads_with_timestamp value salt w = (Raise BadSignature, tick w).
Proof.
  intros Hbad. unfold loads_with_timestamp.
  rewrite run_try_except, run_bind, run_loads.
  by rewrite (proj2 (verify_Invalid _ _ _ _) Hbad).
Qed.

(** When the forced verification passes, the body ends without a
    [return]. *)
Lemma loads_with_timestamp_not_expired (value salt : string) (w : World)
    (payload : pyval) (issued : Z) :
  signing.verify value salt (Some (-1)) (next_reading w)
    = Valid payload issued →
  loads_with_timestamp value salt w = (Return None, tick w).
Proof.
  intros Hok. unfold loads_with_timestamp.
  rewrite run_try_except, run_bind, run_loads. by rewrite Hok.
Qed.

(** When the forced verification reports expiry, the age is parsed off
    the message, subtracted from a fresh clock reading, and the payload
    is loaded again without an age bound. *)
Lemma loads_with_timestamp_expired {Laws : PlatformLaws P}
    (value salt : string) (w : World) (payload : pyval) (issued : Z) :
  signing.verify value salt (Some (-1)) (next_reading w)
    = ExpiredButAuthentic payload issued →
  loads_with_timestamp value salt w
  = (Return (Some (next_reading (tick w)
                     - signing.age (next_reading w) issued, payload)),
     tick (tick (tick w))).
Proof.
  intros Hexp. unfold loads_with_timestamp.
  rewrite run_try_except, run_bind, run_loads, Hexp. cbn beta iota.
  rewrite run_bind, parse_age_expired_message. cbn beta iota.
  unfold timezone_now. run. rewrite run_loads.
  rewrite (verify_authentic _ _ None _ payload issued); [done|].
  apply (verify_unsign _ _ (Some (-1)) (next_reading w)). by right.
Qed.

End LoadsFacts.

(** ** The small platform obeys the laws *)

Module ToyFacts.
Import Toy.

Lemma pos_text_cons (p : positive) : ∃ c s, pos_text p = String c s.
Proof. destruct p; simpl; eauto. Qed.

Lemma text_pos_pos_text (p : positive) : text_pos (pos_text p) = Some p.
Proof.
  induction p as [q IH|q IH|]; [| |done].
  - simpl. destruct (pos_text_cons q) as (c & s & E).
    rewrite E in IH |- *. by rewrite IH.
  - simpl. destruct (pos_text_cons q) as (c & s & E).
    rewrite E in IH |- *. by rewrite IH.
Qed.

Lemma text_int_int_text (n : Z) : text_int (int_text n) = Some n.
Proof.
  destruct n as [|p|p]; [done| |].
  - unfold int_text, text_int.
    pose proof (text_pos_pos_text p) as E.
    destruct p as [q|q|]; simpl in *.
    + by rewrite E.
    + destruct (pos_text_cons q) as (c & s & Eq). rewrite Eq in E |- *.
      by rewrite E.
    + done.
  - simpl. by rewrite text_pos_pos_text.
Qed.

Lemma eqb_other (a c : ascii) : c ≠ a → Ascii.eqb a c = false.
Proof. intros Hne. by destruct (Ascii.eqb_spec a c) as [->|]. Qed.

Lemma has_char_pos_text (c : ascii) (p : positive) :
  c ≠ "0"%char → c ≠ "1"%char → Py.has_char c (pos_text p) = false.
Proof.
  intros H0 H1.
  induction p as [q IH|q IH|]; cbn [pos_text Py.has_char];
    rewrite ?IH, ?(eqb_other "0"), ?(eqb_other "1"); done.
Qed.

Lemma has_char_int_text (c : ascii) (n : Z) :
  c ≠ "0"%char → c ≠ "1"%char → c ≠ "-"%char →
  Py.has_char c (int_text n) = false.
Proof.
  intros H0 H1 Hm.
  destruct n as [|p|p]; cbn [int_text Py.has_char];
    rewrite ?has_char_pos_text, ?(eqb_other "0"), ?(eqb_other "-"); done.
Qed.

Lemma has_char_bit (c : ascii) (b : bool) :
  c ≠ "0"%char → c ≠ "1"%char → Ascii.eqb (bit b) c = false.
Proof.
  intros H0 H1. destruct b; cbn [bit]; by apply eqb_other.
Qed.

Lemma has_char_bits (c : ascii) (s : string) :
  c ≠ "0"%char → c ≠ "1"%char → Py.has_char c (bits s) = false.
Proof.
  intros H0 H1. induction s as [|[b0 b1 b2 b3 b4 b5 b6 b7] s IH]; [done|].
  cbn [bits Py.has_char]. by rewrite !has_char_bit, IH.
Qed.

Lemma bit_inj (b b' : bool) : bit b = bit b' → b = b'.
Proof. by destruct b, b'. Qed.

Lemma bits_inj (s s' : string) : bits s = bits s' → s = s'.
Proof.
  revert s'. induction s as [|[b0 b1 b2 b3 b4 b5 b6 b7] s IH];
    intros [|[c0 c1 c2 c3 c4 c5 c6 c7] s']; simpl; try done.
  intros [= E0 E1 E2 E3 E4 E5 E6 E7 E].
  apply bit_inj in E0, E1, E2, E3, E4, E5, E6, E7.
  subst. by rewrite (IH s' E).
Qed.

Lemma load_dump (obj : pyval) : load (dump obj) = Some obj.
Proof.
  destruct obj as [n|s]; simpl; [|done].
  by rewrite text_int_int_text.
Qed.

(** A token signed at second 100 and read back when the clock shows
    105 s, then 106 s: the age of 5 s is taken off the second reading. *)
Example loads_with_timestamp_drift :
  fst (loads_with_timestamp (P:=platform)
         (signing.sign_at (P:=platform) 100000000 SaltMixin.url_salt
            (PStr "a@b.c"))
         SaltMixin.url_salt (world 105000000 106000000 0 []))
  = Return (Some (101000000, PStr "a@b.c")).
Proof. vm_compute. reflexivity. Qed.

Lemma laws : PlatformLaws platform.
Proof.
  split; simpl.
  - intros salt value secret. unfold hmac.
    rewrite !PyFacts.has_char_app, !has_char_bits by done. done.
  - apply load_dump.
  - intros n. by apply has_char_int_text.
  - apply text_int_int_text.
  - intros a. by apply has_char_int_text.
  - intros a. by apply has_char_int_text.
  - apply text_int_int_text.
Qed.

Lemma separation : SaltSeparation platform.
Proof.
  intros salt1 salt2 value. simpl. unfold hmac. intros E.
  apply bits_inj.
  by repeat apply (inj (String.append _)) in E.
Qed.

End ToyFacts.

(** ** The views *)

Section ViewFacts.
Context {P : Platform}.

(** An unauthentic signature at the confirmation page: not found, or
    the context as the base class made it. *)
Lemma RecoverDone_invalid (self : RecoverDone.t) (kw : gmap string ctxval)
    (value : string) (w : World) :
  RecoverDone.kwargs self !! "signature" = Some value →
  signing.unsign value SaltMixin.url_salt = None →
  RecoverDone.get_context_data self kw w
  = (if RecoverDone.fail_noexistent_user self
     then Raise Http404 else Return kw, tick w).
Proof.
  intros Hsig Hbad. unfold RecoverDone.get_context_data.
  rewrite run_try_except, (getkey_Some _ _ _ Hsig). run.
  rewrite (loads_with_timestamp_invalid _ _ _ Hbad). cbn beta iota.
  cbn [is_BadSignature].
  by destruct (RecoverDone.fail_noexistent_user self).
Qed.

(** An authentic signature at the confirmation page, read after its
    issuance second: both entries are added to the context. *)
Lemma RecoverDone_expired {Laws : PlatformLaws P} (self : RecoverDone.t)
    (kw : gmap string ctxval) (value : string) (w : World)
    (payload : pyval) (issued : Z) :
  RecoverDone.kwargs self !! "signature" = Some value →
  signing.verify value SaltMixin.url_salt (Some (-1)) (next_reading w)
    = ExpiredButAuthentic payload issued →
  RecoverDone.get_context_data self kw w
  = (Return (<["email" := CObj payload]>
               (<["timestamp" :=
                    CTime (next_reading (tick w)
                           - signing.age (next_reading w) issued)]> kw)),
     tick (tick (tick w))).
Proof.
  intros Hsig Hexp. unfold RecoverDone.get_context_data.
  rewrite run_try_except, (getkey_Some _ _ _ Hsig). run.
  by rewrite (loads_with_timestamp_expired _ _ _ _ _ Hexp).
Qed.

(** The terminal state of the reset view always renders. *)
Lemma run_Reset_invalid (self : Reset.t) (w : World) :
  Reset.invalid self w
  = (Return (TemplateResponse (Reset.template_name self)
               {["invalid" := CBool true]}), w).
Proof.
  unfold Reset.invalid, Reset.get_context_data,
    ContextMixin_get_context_data.
  rewrite lookup_singleton_eq, bool_decide_eq_true_2 by eauto.
  reflexivity.
Qed.

(** [Reset.dispatch], by the outcome of verifying the token. *)
Lemma run_Reset_dispatch (V : Reset.t → HttpRequest → M HttpResponse)
    (self : Reset.t) (rq : HttpRequest) (kw : gmap string string)
    (token : string) (w : World) :
  kw !! "token" = Some token →
  Reset.dispatch V self rq kw w
  = match signing.verify token SaltMixin.salt
            (Some (Reset.token_expires self)) (next_reading w) with
    | Valid key _ =>
        (u ← get_object_or_404 key;
         V (Reset.set_user (Reset.set_request self rq kw) u) rq) (tick w)
    | _ =>
        (Return (TemplateResponse (Reset.template_name self)
                   {["invalid" := CBool true]}), tick w)
    end.
Proof.
  intros Htok. unfold Reset.dispatch. cbv zeta.
  rewrite run_bind, run_try_except, (getkey_Some _ _ _ Htok). run.
  rewrite run_loads. cbn [Reset.token_expires Reset.set_request].
  destruct (signing.verify token SaltMixin.salt
              (Some (Reset.token_expires self)) (next_reading w));
    cbn beta iota; cbn [is_BadSignature]; run;
    rewrite ?run_Reset_invalid; reflexivity.
Qed.

End ViewFacts.

(** ** The recovery request *)

Section RecoverFacts.
Context {P : Platform}.

Lemma only_username_spec (fields : list string) :
  Recover.only_username fields = true ↔ fields = ["username"].
Proof.
  unfold Recover.only_username.
  rewrite andb_true_iff, !bool_decide_eq_true.
  split.
  - intros [Hlen Hhd]. destruct fields as [|f [|g fields]]; try done.
    by injection Hhd as ->.
  - by intros ->.
Qed.

Lemma run_get_email_context (self : Recover.t) (u : User) (w : World) :
  Recover.user self = Some u →
  Recover.get_email_context self w
  = (Return (mkEmailContext (get_host (Recover.request self)) u
               (signing.sign_at (next_reading w) SaltMixin.salt (PInt (pk u)))
               (is_secure (Recover.request self))),
     tick w).
Proof.
  intros Hu. unfold Recover.get_email_context, signing.dumps.
  rewrite Hu. reflexivity.
Qed.

(** [send_notification], by what the mail sender does with the mail. *)
Lemma run_send_notification (self : Recover.t) (u : User) (w : World) :
  Recover.user self = Some u →
  Recover.send_notification self w
  = match mailer w (Recover.notification self u (next_reading w)) with
    | None =>
        (Return (),
         mkWorld (clock w) (S (reads w))
           (outbox w ++ [Recover.notification self u (next_reading w)])
           (users w) (mailer w))
    | Some e => (Raise e, tick w)
    end.
Proof.
  intros Hu.
  unfold Recover.send_notification, Recover.get_email_context, signing.dumps.
  rewrite Hu. reflexivity.
Qed.

(** [form_valid] with an account found, by what the mail sender does. *)
Lemma run_form_valid_found (self : Recover.t) (form : RecoveryForm)
    (u : User) (w : World) :
  cleaned_user form = Some u →
  Recover.form_valid self form w
  = match mailer w (Recover.notification self u (next_reading w)) with
    | None =>
        let token :=
          signing.sign_at (next_reading (tick w)) SaltMixin.url_salt
            (PStr (if Recover.only_username (Recover.search_fields self)
                   then username u else email u)) in
        (Return (HttpResponseRedirect (reverse "password_reset_sent" [token]),
                 Recover.set_mail_signature
                   (Recover.set_user self (Some u)) token),
         mkWorld (clock w) (S (S (reads w)))
           (outbox w ++ [Recover.notification self u (next_reading w)])
           (users w) (mailer w))
    | Some e => (Raise e, tick w)
    end.
Proof.
  intros Hu. unfold Recover.form_valid. rewrite Hu. cbv zeta.
  cbn [Recover.user Recover.set_user].
  rewrite run_bind, run_bind.
  rewrite (run_send_notification (Recover.set_user self (Some u)) u w eq_refl).
  change (Recover.notification (Recover.set_user self (Some u)) u
            (next_reading w))
    with (Recover.notification self u (next_reading w)).
  by destruct (mailer w (Recover.notification self u (next_reading w))).
Qed.

(** The world after [form_valid] found an account and the mail sender
    took the notification: two clock readings were taken and one mail was
    handed over. *)
Lemma run_form_valid_match (self : Recover.t) (form : RecoveryForm)
    (u : User) (w : World) :
  cleaned_user form = Some u →
  mailer w (Recover.notification self u (next_reading w)) = None →
  let self1 := Recover.set_user self (Some u) in
  let mail := Recover.notification self u (next_reading w) in
  let token :=
    signing.sign_at (next_reading (tick w)) SaltMixin.url_salt
      (PStr (if Recover.only_username (Recover.search_fields self)
             then username u else email u)) in
  Recover.form_valid self form w
  = (Return (HttpResponseRedirect (reverse "password_reset_sent" [token]),
             Recover.set_mail_signature self1 token),
     mkWorld (clock w) (S (S (reads w))) (outbox w ++ [mail]) (users w)
       (mailer w)).
Proof.
  intros Hu Hsent. by rewrite (run_form_valid_found _ _ _ _ Hu), Hsent.
Qed.

(** When the mail sender fails on the notification, its exception leaves
    [form_valid] after the one clock reading of the mailed token. *)
Lemma run_form_valid_refused (self : Recover.t) (form : RecoveryForm)
    (u : User) (w : World) (e : exn) :
  cleaned_user form = Some u →
  mailer w (Recover.notification self u (next_reading w)) = Some e →
  Recover.form_valid self form w = (Raise e, tick w).
Proof.
  intros Hu Hfail. by rewrite (run_form_valid_found _ _ _ _ Hu), Hfail.
Qed.

(** The world after [form_valid] found no account: one clock reading, no
    mail. *)
Lemma run_form_valid_no_match (self : Recover.t) (form : RecoveryForm)
    (w : World) :
  cleaned_user form = None →
  let token :=
    signing.sign_at (next_reading w) "fake-send"
      (PStr (cleaned_username_or_email form)) in
  Recover.form_valid self form w
  = (Return (HttpResponseRedirect (reverse "password_reset_sent" [token]),
             Recover.set_mail_signature (Recover.set_user self None) token),
     tick w).
Proof.
  intros Hu. unfold Recover.form_valid. rewrite Hu. reflexivity.
Qed.

End RecoverFacts.

(** ** The platform whose hash leaves the salt out *)


(** * Properties of the views *)

(** ** [loads_with_timestamp] *)

(** C1, at its failing input. A token for ["a@b.c"] is signed under the
    acknowledgement salt when the clock reads 100 s and handed to
    [loads_with_timestamp] when the clock reads 98 s. The forced
    verification with [max_age=-1] then passes, since an age of -2 s does
    not exceed -1 s; the function returns [None] instead of the
    (timestamp, payload) pair, and the confirmation page fails with
    [TypeError] when it unpacks that result. *)
Theorem C1_passing_verification_returns_None :
  let token :=
    signing.sign_at (P:=Toy.platform) 100000000 SaltMixin.url_salt
      (PStr "a@b.c") in
  let w := Toy.world 98000000 98000000 98000000 [] in
  signing.verify (P:=Toy.platform) token SaltMixin.url_salt (Some (-1))
    (next_reading w)
    = Valid (PStr "a@b.c") 100
  ∧ loads_with_timestamp (P:=Toy.platform) token SaltMixin.url_salt w
    = (Return None, tick w)
  ∧ fst (RecoverDone.get_context_data (P:=Toy.platform)
           (RecoverDone.as_view {["signature" := token]}) ∅ w)
    = Raise TypeError.
Proof.
  intros token w.
  assert (Hok : signing.verify (P:=Toy.platform) token SaltMixin.url_salt
                  (Some (-1)) (next_reading w)
                = Valid (PStr "a@b.c") 100).
  { unfold token.
    rewrite (verify_authentic _ _ _ _ _ _
               (unsign_sign_at (Laws:=ToyFacts.laws) _ _ _)).
    reflexivity. }
  split; [exact Hok|]. split.
  - exact (loads_with_timestamp_not_expired _ _ _ _ _ Hok).
  - unfold RecoverDone.get_context_data, RecoverDone.as_view.
    cbn [RecoverDone.kwargs].
    rewrite run_try_except, (getkey_Some _ _ _ (lookup_singleton_eq _ _)). run.
    rewrite (loads_with_timestamp_not_expired _ _ _ _ _ Hok).
    reflexivity.
Qed.

(** C2. A token signed at time [T0] (not before the epoch) and handed to
    [loads_with_timestamp] at any later time comes back as the pair of a
    timestamp and the original payload. The timestamp is [T0] cut to the
    whole second, moved by whatever time passes between the two clock
    readings of the call; so it lies within one second of [T0] once that
    passage is taken out. Meanwhile [signing.loads] with any max-age
    shorter than the token's age raises [SignatureExpired]. *)
Theorem C2_timestamp_recovery {P : Platform} {Laws : PlatformLaws P}
    (obj : pyval) (salt : string) (T0 : Time) (w : World) :
  0 ≤ T0 →
  T0 ≤ next_reading w →
  let token := signing.sign_at T0 salt obj in
  let elapsed := next_reading (tick w) - next_reading w in
  ∃ ts : Time,
    loads_with_timestamp token salt w
      = (Return (Some (ts, obj)), tick (tick (tick w)))
    ∧ ts = T0 `quot` MICRO * MICRO + elapsed
    ∧ T0 - MICRO < ts - elapsed ≤ T0
    ∧ ∀ m : Z, m * MICRO < next_reading w - T0 →
        ∃ msg, signing.loads token salt (Some m) w
               = (Raise (SignatureExpired msg), tick w).
Proof.
  intros Hepoch Hlater token elapsed.
  assert (Hq : T0 - MICRO < T0 `quot` MICRO * MICRO ≤ T0).
  { unfold MICRO. rewrite Z.quot_div_nonneg by lia.
    pose proof (Z.mod_pos_bound T0 1000000 ltac:(lia)).
    pose proof (Z.div_mod T0 1000000 ltac:(lia)). lia. }
  assert (Hexp : ∀ m : Z, m * MICRO < next_reading w - T0 →
            signing.verify token salt (Some m) (next_reading w)
            = ExpiredButAuthentic obj (signing.timestamp T0)).
  { intros m Hm. unfold token.
    rewrite (verify_authentic _ _ _ _ _ _ (unsign_sign_at _ _ _)).
    unfold signing.age, signing.timestamp.
    destruct (Z.gtb_spec (next_reading w - T0 `quot` MICRO * MICRO)
                (m * MICRO)); [done|lia]. }
  eexists. split; [|split; [|split]].
  - apply loads_with_timestamp_expired with (issued := signing.timestamp T0).
    apply Hexp. unfold MICRO. lia.
  - unfold signing.age, signing.timestamp, elapsed. lia.
  - unfold signing.age, signing.timestamp, elapsed. lia.
  - intros m Hm. rewrite run_loads, (Hexp m Hm). eauto.
Qed.

Lemma C2_timestamp_recovery_witness :
  ∃ ts : Time,
    loads_with_timestamp (P:=Toy.platform)
      (signing.sign_at (P:=Toy.platform) 100500000 "password_recovery_url"
         (PStr "a@b.c"))
      "password_recovery_url"
      (Toy.world 10100500000 10100500000 10100500000 [])
    = (Return (Some (ts, PStr "a@b.c")),
       tick (tick (tick (Toy.world 10100500000 10100500000 10100500000 []))))
    ∧ ts = 100000000.
Proof.
  destruct (C2_timestamp_recovery (Laws:=ToyFacts.laws) (PStr "a@b.c")
              "password_recovery_url" 100500000
              (Toy.world 10100500000 10100500000 10100500000 []))
    as (ts & Hrun & Hts & _).
  - lia.
  - vm_compute. discriminate.
  - exists ts. split; [exact Hrun|]. rewrite Hts. reflexivity.
Defined.

(** C3. A token whose verification outcome is [Invalid] (forged, tampered
    or malformed, as opposed to expired) makes [loads_with_timestamp]
    raise [BadSignature] to its caller; nothing is returned. At the
    confirmation page, which calls it under the acknowledgement salt, the
    failure becomes [Http404] or leaves the context as the base class
    made it, with no timestamp or email entry added. *)
Theorem C3_bad_signature_propagates {P : Platform}
    (value salt : string) (max_age : option Z) (t : Time) (w : World) :
  signing.verify value salt max_age t = Invalid →
  loads_with_timestamp value salt w = (Raise BadSignature, tick w)
  ∧ (salt = SaltMixin.url_salt →
     ∀ (self : RecoverDone.t) (kw : gmap string ctxval),
       RecoverDone.kwargs self !! "signature" = Some value →
       RecoverDone.get_context_data self kw w
       = (if RecoverDone.fail_noexistent_user self
          then Raise Http404 else Return kw, tick w)).
Proof.
  intros Hbad%verify_Invalid. split.
  - by apply loads_with_timestamp_invalid.
  - intros -> self kw Hsig. by apply RecoverDone_invalid with (value := value).
Qed.

Lemma C3_bad_signature_propagates_witness :
  loads_with_timestamp (P:=Toy.platform) "sa@b.c:0010011:forged"
    "password_recovery_url" (Toy.world 5 6 7 [])
  = (Raise BadSignature, tick (Toy.world 5 6 7 [])).
Proof.
  apply (C3_bad_signature_propagates (P:=Toy.platform)
           "sa@b.c:0010011:forged" "password_recovery_url" None 0).
  vm_compute. reflexivity.
Defined.

(** ** The token codec *)




(** C5. Round trip. A token signed at [T0] under salt [S] and verified
    under the same salt, with no age bound or with a bound its age does
    not exceed, is [Valid] with the payload it was signed over and the
    second it was signed in. In particular the reset token that the
    recovery flow signs over an account's [pk] under ["password_recovery"]
    loads back as that [pk] in the reset flow while it is no older than
    [token_expires], and [Reset.dispatch] goes on to look that [pk] up. *)
Theorem C5_round_trip {P : Platform} {Laws : PlatformLaws P}
    (obj : pyval) (S : string) (T0 t : Time) (max_age : option Z) :
  (∀ m, max_age = Some m →
        signing.age t (signing.timestamp T0) ≤ m * MICRO) →
  signing.verify (signing.sign_at T0 S obj) S max_age t
    = Valid obj (signing.timestamp T0)
  ∧ ∀ (self : Recover.t) (u : User) (w0 w : World)
      (V : Reset.t → HttpRequest → M HttpResponse) (rq : HttpRequest),
      Recover.user self = Some u →
      signing.age (next_reading w) (signing.timestamp (next_reading w0))
        ≤ Reset.token_expires Reset.as_view * MICRO →
      ∃ ctx : EmailContext,
        Recover.get_email_context self w0 = (Return ctx, tick w0)
        ∧ signing.loads (ec_token ctx) SaltMixin.salt
            (Some (Reset.token_expires Reset.as_view)) w
          = (Return (PInt (pk u)), tick w)
        ∧ Reset.dispatch V Reset.as_view rq {["token" := ec_token ctx]} w
          = (u' ← get_object_or_404 (PInt (pk u));
             V (Reset.set_user
                  (Reset.set_request Reset.as_view rq
                     {["token" := ec_token ctx]}) u') rq) (tick w).
Proof.
  intros Hage.
  assert (Hvalid : ∀ obj' S' T0' t' m,
            signing.age t' (signing.timestamp T0') ≤ m * MICRO →
            signing.verify (signing.sign_at T0' S' obj') S' (Some m) t'
            = Valid obj' (signing.timestamp T0')).
  { intros obj' S' T0' t' m Hm.
    rewrite (verify_authentic _ _ _ _ _ _ (unsign_sign_at _ _ _)).
    destruct (Z.gtb_spec (signing.age t' (signing.timestamp T0'))
                (m * MICRO)); [lia|done]. }
  split.
  - destruct max_age as [m|].
    + apply Hvalid. by apply Hage.
    + by rewrite (verify_authentic _ _ _ _ _ _ (unsign_sign_at _ _ _)).
  - intros self u w0 w V rq Hu Hfresh.
    eexists. split; [by apply run_get_email_context|].
    cbn [ec_token]. split.
    + rewrite run_loads. by rewrite (Hvalid _ _ _ _ _ Hfresh).
    + rewrite (run_Reset_dispatch _ _ _ _ _ _ (lookup_singleton_eq _ _)).
      by rewrite (Hvalid _ _ _ _ _ Hfresh).
Qed.

Lemma C5_round_trip_witness :
  signing.verify (P:=Toy.platform)
    (signing.sign_at (P:=Toy.platform) 100000000 "password_recovery" (PInt 42))
    "password_recovery" (Some 172800) 105000000
  = Valid (PInt 42) 100.
Proof.
  apply (C5_round_trip (Laws:=ToyFacts.laws) (PInt 42) "password_recovery"
           100000000 105000000 (Some 172800)).
  intros m [= <-]. vm_compute. discriminate.
Defined.

(** ** The recovery request *)

(** C6. When the form found an account and the mail sender takes the
    notification, the acknowledgement token is signed under the
    acknowledgement salt over the account's username if [search_fields]
    is exactly [['username']], and over its email address under every
    other configuration; the token splits back into that payload. For an
    account whose username and email differ, the payload is the username
    if and only if [search_fields] is [['username']]. *)
Theorem C6_disclosed_identifier {P : Platform} {Laws : PlatformLaws P}
    (self : Recover.t) (form : RecoveryForm) (u : User) (w : World) :
  cleaned_user form = Some u →
  mailer w (Recover.notification self u (next_reading w)) = None →
  ∃ (payload token : string) (response : HttpResponse) (self' : Recover.t)
    (w' : World),
    Recover.form_valid self form w = (Return (response, self'), w')
    ∧ Recover.mail_signature self' = Some token
    ∧ token = signing.sign_at (next_reading (tick w)) SaltMixin.url_salt
                (PStr payload)
    ∧ signing.unsign token SaltMixin.url_salt
      = Some (PStr payload, signing.timestamp (next_reading (tick w)))
    ∧ (Recover.search_fields self = ["username"] → payload = username u)
    ∧ (Recover.search_fields self ≠ ["username"] → payload = email u)
    ∧ (username u ≠ email u →
       (payload = username u ↔ Recover.search_fields self = ["username"])).
Proof.
  intros Hu Hsent.
  exists (if Recover.only_username (Recover.search_fields self)
          then username u else email u).
  eexists _, _, _, _.
  split; [by apply run_form_valid_match|].
  split; [reflexivity|]. split; [reflexivity|].
  split; [apply unsign_sign_at|].
  pose proof (only_username_spec (Recover.search_fields self)) as Hspec.
  destruct (Recover.only_username (Recover.search_fields self)).
  - assert (Recover.search_fields self = ["username"]) by by apply Hspec.
    repeat split; intros; congruence.
  - assert (Recover.search_fields self ≠ ["username"]).
    { intros Heq. by apply Hspec in Heq. }
    repeat split; intros; congruence.
Qed.

Lemma C6_disclosed_identifier_witness :
  ∃ (token : string) (response : HttpResponse) (self' : Recover.t)
    (w' : World),
    Recover.form_valid (P:=Toy.platform)
      (Recover.as_view (mkRequest "example.com" true "/recover/"))
      (mkForm (Some (mkUser 42 "alice" "alice@example.com")) "alice")
      (Toy.world 100000000 100000001 100000002 [])
    = (Return (response, self'), w')
    ∧ signing.unsign (P:=Toy.platform) token SaltMixin.url_salt
      = Some (PStr "alice@example.com", 100).
Proof.
  destruct (C6_disclosed_identifier (Laws:=ToyFacts.laws)
              (Recover.as_view (mkRequest "example.com" true "/recover/"))
              (mkForm (Some (mkUser 42 "alice" "alice@example.com")) "alice")
              (mkUser 42 "alice" "alice@example.com")
              (Toy.world 100000000 100000001 100000002 []) eq_refl eq_refl)
    as (payload & token & response & self' & w' & Hrun & _ & _ & Huns & _
        & Hemail & _).
  exists token, response, self', w'. split; [exact Hrun|].
  rewrite Huns, Hemail; [reflexivity|]. discriminate.
Defined.

(** C7, as amended. A recovery request ends in a redirect to the URL
    [password_reset_sent] carrying one acknowledgement token, which is
    also left in [mail_signature], unless an account matched and the mail
    sender fails. When the form found an account and the sender takes the
    notification, exactly that one mail, addressed to the account's
    email, is added to the outbox and the token is signed under the
    acknowledgement salt over the disclosed identifier: the username when
    [search_fields] is exactly [['username']], else the email. When the
    sender fails on the notification, its exception leaves [form_valid]:
    no token, no redirect, and the outbox as it was. When the form found
    no account, the sender is not called: the outbox is unchanged and the
    token, signed under the decoy salt ["fake-send"] over the text the
    visitor typed, is there unconditionally. *)
Theorem C7_token_in_both_branches {P : Platform}
    (self : Recover.t) (form : RecoveryForm) (w : World) :
  match cleaned_user form with
  | Some u =>
      let mail := Recover.notification self u (next_reading w) in
      let token :=
        signing.sign_at (next_reading (tick w)) SaltMixin.url_salt
          (PStr (if decide (Recover.search_fields self = ["username"])
                 then username u else email u)) in
      match mailer w mail with
      | None =>
          ∃ (self' : Recover.t) (w' : World),
            Recover.form_valid self form w
            = (Return (HttpResponseRedirect
                         (reverse "password_reset_sent" [token]), self'),
               w')
            ∧ Recover.mail_signature self' = Some token
            ∧ outbox w' = outbox w ++ [mail]
            ∧ mail_recipients mail = [email u]
      | Some e =>
          Recover.form_valid self form w = (Raise e, tick w)
          ∧ outbox (tick w) = outbox w
      end
  | None =>
      let token :=
        signing.sign_at (next_reading w) "fake-send"
          (PStr (cleaned_username_or_email form)) in
      ∃ self' : Recover.t,
        Recover.form_valid self form w
        = (Return (HttpResponseRedirect
                     (reverse "password_reset_sent" [token]), self'),
           tick w)
        ∧ Recover.mail_signature self' = Some token
        ∧ outbox (tick w) = outbox w
  end.
Proof.
  destruct (cleaned_user form) as [u|] eqn:Hu.
  - cbv zeta.
    destruct (mailer w (Recover.notification self u (next_reading w)))
      as [e|] eqn:Hm.
    + split; [exact (run_form_valid_refused _ _ _ _ _ Hu Hm)|reflexivity].
    + assert (Hid : (if Recover.only_username (Recover.search_fields self)
                     then username u else email u)
                    = (if decide (Recover.search_fields self = ["username"])
                       then username u else email u)).
      { pose proof (only_username_spec (Recover.search_fields self)) as Hspec.
        destruct (Recover.only_username (Recover.search_fields self)),
          (decide (Recover.search_fields self = ["username"]))
          as [Heq|Hne]; try reflexivity.
        - exfalso. apply Hne. by apply Hspec.
        - apply Hspec in Heq. discriminate Heq. }
      pose proof (run_form_valid_match _ _ _ _ Hu Hm) as Hrun.
      cbv zeta in Hrun. rewrite Hid in Hrun.
      eexists _, _. split; [exact Hrun|].
      split; [reflexivity|]. split; reflexivity.
  - cbv zeta. eexists. split; [by apply run_form_valid_no_match|].
    split; reflexivity.
Qed.

(** C7, as first stated, fails when the mail sender is down: a request
    that matches an account then ends in the sender's exception, and no
    response, hence no token, comes back. *)
Lemma C7_mail_sender_down_counterexample :
  Recover.form_valid (P:=Toy.platform)
    (Recover.as_view (mkRequest "example.com" true "/recover/"))
    (mkForm (Some (mkUser 42 "alice" "alice@example.com")) "alice")
    (Toy.world_mail_down 100000000 100000001 100000002 [])
  = (Raise SMTPException,
     tick (Toy.world_mail_down 100000000 100000001 100000002 []))
  ∧ ¬ ∃ (token : string) (self' : Recover.t) (w' : World),
        Recover.form_valid (P:=Toy.platform)
          (Recover.as_view (mkRequest "example.com" true "/recover/"))
          (mkForm (Some (mkUser 42 "alice" "alice@example.com")) "alice")
          (Toy.world_mail_down 100000000 100000001 100000002 [])
        = (Return (HttpResponseRedirect
                     (reverse "password_reset_sent" [token]), self'), w').
Proof.
  assert (Hrun :
    Recover.form_valid (P:=Toy.platform)
      (Recover.as_view (mkRequest "example.com" true "/recover/"))
      (mkForm (Some (mkUser 42 "alice" "alice@example.com")) "alice")
      (Toy.world_mail_down 100000000 100000001 100000002 [])
    = (Raise SMTPException,
       tick (Toy.world_mail_down 100000000 100000001 100000002 []))).
  { by apply run_form_valid_refused
      with (u := mkUser 42 "alice" "alice@example.com"). }
  split; [exact Hrun|].
  intros (token & self' & w' & Hret). rewrite Hrun in Hret. discriminate Hret.
Qed.

(** ** The reset view *)

(** C8. [Reset.dispatch] verifies the token of the URL under the reset
    salt with a maximum age of exactly 172800 seconds: what it does is
    decided by the outcome of that verification. A token that is
    [Invalid] and a token that is authentic but expired both get the same
    response, the page rendered with [invalid] set, returned and not
    raised; the account lookup and the form view are not reached. A token
    that is [Valid] goes on to the account lookup and the form view. An
    authentic token is expired exactly when its age exceeds 172800
    seconds, and [Valid] exactly when it does not. *)
Theorem C8_reset_rejects_invalid_and_expired {P : Platform}
    (V : Reset.t → HttpRequest → M HttpResponse) (rq : HttpRequest)
    (kw : gmap string string) (token : string) (w : World)
    (payload : pyval) (issued : Z) :
  kw !! "token" = Some token →
  let outcome :=
    signing.verify token SaltMixin.salt (Some 172800) (next_reading w) in
  let invalid_page :=
    TemplateResponse "password_reset/reset.html" {["invalid" := CBool true]} in
  Reset.token_expires Reset.as_view = 172800
  ∧ (outcome = Invalid →
     Reset.dispatch V Reset.as_view rq kw w = (Return invalid_page, tick w))
  ∧ (outcome = ExpiredButAuthentic payload issued →
     Reset.dispatch V Reset.as_view rq kw w = (Return invalid_page, tick w))
  ∧ (outcome = Valid payload issued →
     Reset.dispatch V Reset.as_view rq kw w
     = (u ← get_object_or_404 payload;
        V (Reset.set_user (Reset.set_request Reset.as_view rq kw) u) rq)
         (tick w))
  ∧ (signing.unsign token SaltMixin.salt = Some (payload, issued) →
     (outcome = ExpiredButAuthentic payload issued
      ↔ 172800 * MICRO < signing.age (next_reading w) issued)
     ∧ (outcome = Valid payload issued
        ↔ signing.age (next_reading w) issued ≤ 172800 * MICRO)).
Proof.
  intros Htok outcome invalid_page.
  assert (Hrun := run_Reset_dispatch V Reset.as_view rq kw token w Htok).
  change (Reset.token_expires Reset.as_view) with 172800 in Hrun.
  fold outcome in Hrun.
  split; [reflexivity|]. split; [|split; [|split]].
  - intros Hout. by rewrite Hrun, Hout.
  - intros Hout. by rewrite Hrun, Hout.
  - intros Hout. by rewrite Hrun, Hout.
  - intros Hauth. unfold outcome.
    rewrite (verify_authentic _ _ _ _ _ _ Hauth).
    destruct (Z.gtb_spec (signing.age (next_reading w) issued)
                (172800 * MICRO)); split; split; (done || lia).
Qed.

Lemma C8_reset_rejects_invalid_and_expired_witness :
  Reset.dispatch (P:=Toy.platform) Toy.form_view Reset.as_view
    (mkRequest "example.com" true "/reset/")
    {["token" := signing.sign_at (P:=Toy.platform) 100000000
                   "password_recovery" (PInt 42)]}
    (Toy.world 172901000000 0 0 [mkUser 42 "alice" "alice@example.com"])
  = (Return (TemplateResponse "password_reset/reset.html"
               {["invalid" := CBool true]}),
     tick (Toy.world 172901000000 0 0
             [mkUser 42 "alice" "alice@example.com"])).
Proof.
  refine (proj1 (proj2 (proj2
            (C8_reset_rejects_invalid_and_expired (P:=Toy.platform)
               Toy.form_view (mkRequest "example.com" true "/reset/")
               {["token" := signing.sign_at (P:=Toy.platform) 100000000
                              "password_recovery" (PInt 42)]}
               (signing.sign_at (P:=Toy.platform) 100000000
                  "password_recovery" (PInt 42))
               (Toy.world 172901000000 0 0
                  [mkUser 42 "alice" "alice@example.com"])
               (PInt 42) 100 (lookup_singleton_eq _ _)))) _).
  rewrite (verify_authentic _ _ _ _ _ _
             (unsign_sign_at (Laws:=ToyFacts.laws) _ _ _)).
  reflexivity.
Defined.

(** C9. When the token is [Valid] under the reset salt within
    [token_expires] but no account has the primary key it carries,
    [Reset.dispatch] raises [Http404]. That differs from what a visit with
    an invalid token gets, which is the response returned by
    [Reset.invalid]. *)
Theorem C9_missing_account_is_not_found {P : Platform}
    (V : Reset.t → HttpRequest → M HttpResponse) (rq : HttpRequest)
    (kw : gmap string string) (token : string) (w : World)
    (n issued : Z) :
  kw !! "token" = Some token →
  signing.verify token SaltMixin.salt
    (Some (Reset.token_expires Reset.as_view)) (next_reading w)
    = Valid (PInt n) issued →
  (∀ u, u ∈ users w → pk u ≠ n) →
  Reset.dispatch V Reset.as_view rq kw w = (Raise Http404, tick w)
  ∧ ∀ (self' : Reset.t) (w' : World),
      fst (Reset.dispatch V Reset.as_view rq kw w)
      ≠ fst (Reset.invalid self' w').
Proof.
  intros Htok Hvalid Hnone.
  assert (Hrun : Reset.dispatch V Reset.as_view rq kw w
                 = (Raise Http404, tick w)).
  { rewrite (run_Reset_dispatch _ _ _ _ _ _ Htok), Hvalid, run_bind.
    unfold get_object_or_404. cbn [users tick].
    assert (Hfind : List.find (λ u, bool_decide (pk u = n)) (users w) = None).
    { induction (users w) as [|u us IH]; [done|].
      cbn [List.find]. rewrite bool_decide_eq_false_2.
      - apply IH. intros u' Hu'. apply Hnone. by right.
      - apply Hnone. by left. }
    by rewrite Hfind. }
  split; [exact Hrun|].
  intros self' w'. by rewrite Hrun, run_Reset_invalid.
Qed.

Lemma C9_missing_account_is_not_found_witness :
  Reset.dispatch (P:=Toy.platform) Toy.form_view Reset.as_view
    (mkRequest "example.com" true "/reset/")
    {["token" := signing.sign_at (P:=Toy.platform) 100000000
                   "password_recovery" (PInt 42)]}
    (Toy.world 100000001 0 0 [mkUser 7 "bob" "bob@example.com"])
  = (Raise Http404,
     tick (Toy.world 100000001 0 0 [mkUser 7 "bob" "bob@example.com"])).
Proof.
  apply (C9_missing_account_is_not_found (P:=Toy.platform) Toy.form_view
           (mkRequest "example.com" true "/reset/")
           {["token" := signing.sign_at (P:=Toy.platform) 100000000
                          "password_recovery" (PInt 42)]}
           (signing.sign_at (P:=Toy.platform) 100000000
              "password_recovery" (PInt 42))
           (Toy.world 100000001 0 0 [mkUser 7 "bob" "bob@example.com"])
           42 100).
  - apply lookup_singleton_eq.
  - rewrite (verify_authentic _ _ _ _ _ _
               (unsign_sign_at (Laws:=ToyFacts.laws) _ _ _)).
    reflexivity.
  - intros u [->|[]%elem_of_nil]%elem_of_cons. discriminate.
Defined.

(** ** The confirmation page *)

(** C10. Under a collision-free keyed hash, a decoy token, signed under
    ["fake-send"], is [Invalid] under the acknowledgement salt at the
    confirmation page: [loads_with_timestamp] raises [BadSignature]; with
    [fail_noexistent_user] set the page raises [Http404], and without it
    the context comes back as the base class made it, with neither
    [timestamp] nor [email] added. A token signed under the acknowledgement
    salt and read at or after its signing time gets both entries, so the
    page answers the two kinds of token differently. *)
Theorem C10_decoy_at_confirmation_page {P : Platform}
    {Laws : PlatformLaws P} (Hsep : SaltSeparation P)
    (self : RecoverDone.t) (kw : gmap string ctxval) (typed : string)
    (T0 : Time) (w : World) :
  let decoy := signing.sign_at T0 "fake-send" (PStr typed) in
  RecoverDone.kwargs self !! "signature" = Some decoy →
  signing.verify decoy SaltMixin.url_salt (Some (-1)) (next_reading w)
    = Invalid
  ∧ loads_with_timestamp decoy SaltMixin.url_salt w
    = (Raise BadSignature, tick w)
  ∧ (RecoverDone.fail_noexistent_user self = true →
     RecoverDone.get_context_data self kw w = (Raise Http404, tick w))
  ∧ (RecoverDone.fail_noexistent_user self = false →
     RecoverDone.get_context_data self kw w = (Return kw, tick w))
  ∧ ∀ (self2 : RecoverDone.t) (ident : string) (T1 : Time),
      RecoverDone.kwargs self2 !! "signature"
        = Some (signing.sign_at T1 SaltMixin.url_salt (PStr ident)) →
      0 ≤ T1 ≤ next_reading w →
      kw !! "email" = None →
      ∃ (ctx : gmap string ctxval) (ts : Time),
        RecoverDone.get_context_data self2 kw w
          = (Return ctx, tick (tick (tick w)))
        ∧ ctx !! "timestamp" = Some (CTime ts)
        ∧ ctx !! "email" = Some (CObj (PStr ident))
        ∧ fst (RecoverDone.get_context_data self kw w) ≠ Return ctx.
Proof.
  intros decoy Hsig.
  assert (Hbad : signing.unsign decoy SaltMixin.url_salt = None).
  { by apply unsign_other_salt. }
  assert (Hpage := RecoverDone_invalid self kw decoy w Hsig Hbad).
  split; [by apply verify_Invalid|].
  split; [by apply loads_with_timestamp_invalid|].
  split; [by intros Hfail; rewrite Hfail in Hpage|].
  split; [by intros Hfail; rewrite Hfail in Hpage|].
  intros self2 ident T1 Hsig2 [Hepoch Hlater] Hfresh.
  assert (Hexp : signing.verify
                   (signing.sign_at T1 SaltMixin.url_salt (PStr ident))
                   SaltMixin.url_salt (Some (-1)) (next_reading w)
                 = ExpiredButAuthentic (PStr ident) (signing.timestamp T1)).
  { rewrite (verify_authentic _ _ _ _ _ _ (unsign_sign_at _ _ _)).
    unfold signing.age, signing.timestamp.
    assert (T1 `quot` MICRO * MICRO ≤ T1).
    { unfold MICRO. rewrite Z.quot_div_nonneg by lia.
      pose proof (Z.mod_pos_bound T1 1000000 ltac:(lia)).
      pose proof (Z.div_mod T1 1000000 ltac:(lia)). lia. }
    destruct (Z.gtb_spec (next_reading w - T1 `quot` MICRO * MICRO)
                (-1 * MICRO)); [done|unfold MICRO in *; lia]. }
  eexists _, _.
  split; [by apply (RecoverDone_expired self2 kw _ w _ _ Hsig2 Hexp)|].
  split; [by rewrite lookup_insert_ne, lookup_insert_eq|].
  split; [by rewrite lookup_insert_eq|].
  rewrite Hpage. cbn [fst].
  destruct (RecoverDone.fail_noexistent_user self); [done|].
  intros [= Heq].
  assert (Hl : kw !! "email" = Some (CObj (PStr ident))).
  { rewrite Heq at 1. by rewrite lookup_insert_eq. }
  by rewrite Hfresh in Hl.
Qed.

Lemma C10_decoy_at_confirmation_page_witness :
  RecoverDone.get_context_data (P:=Toy.platform)
    (RecoverDone.as_view
       {["signature" := signing.sign_at (P:=Toy.platform) 100000000
                          "fake-send" (PStr "nobody")]})
    ∅ (Toy.world 100000001 0 0 [])
  = (Raise Http404, tick (Toy.world 100000001 0 0 [])).
Proof.
  apply (C10_decoy_at_confirmation_page (Laws:=ToyFacts.laws)
           ToyFacts.separation
           (RecoverDone.as_view
              {["signature" := signing.sign_at (P:=Toy.platform) 100000000
                                 "fake-send" (PStr "nobody")]})
           ∅ "nobody" 100000000 (Toy.world 100000001 0 0 [])).
  - apply lookup_singleton_eq.
  - reflexivity.
Defined.

(** * Further properties of the views *)

(** ** More on [str.split] *)

Module SplitFacts.

Example contains_marker :
  Py.contains "Signature age " "Signature age 12.5 > -1 seconds" = true.
Proof. reflexivity. Qed.

Example contains_no_marker : Py.contains "Signature age " "bad token" = false.
Proof. reflexivity. Qed.

Lemma contains_cons sep c s :
  Py.contains sep (String c s)
  = String.prefix sep (String c s) || Py.contains sep s.
Proof. reflexivity. Qed.

(** A split always has a first piece. *)
Lemma split_go_cons sep skip cur s :
  ∃ x rest, Py.split_go sep skip cur s = x :: rest.
Proof.
  revert skip cur. induction s as [|c s IH]; intros skip cur.
  - by exists cur, [].
  - destruct skip as [|k].
    + rewrite PyFacts.split_go_0. destruct (String.prefix sep (String c s)).
      * by eexists _, _.
      * apply IH.
    + apply IH.
Qed.

(** Without an occurrence of the separator the split is the string. *)
Lemma split_go_absent sep cur s :
  Py.contains sep s = false → Py.split_go sep 0 cur s = [cur +:+ s].
Proof.
  revert cur. induction s as [|c s IH]; intros cur.
  - intros _. by rewrite PyFacts.app_empty_r.
  - rewrite contains_cons. intros [Hp Hs]%orb_false_iff.
    rewrite PyFacts.split_go_0, Hp, (IH _ Hs).
    by rewrite PyFacts.app_assoc.
Qed.

(** With an occurrence there are at least two pieces. *)
Lemma split_go_present c0 sep cur s :
  Py.contains (String c0 sep) s = true →
  ∃ x y rest, Py.split_go (String c0 sep) 0 cur s = x :: y :: rest.
Proof.
  revert cur. induction s as [|c s IH]; intros cur; [done|].
  rewrite contains_cons, PyFacts.split_go_0.
  destruct (String.prefix (String c0 sep) (String c s)).
  - intros _.
    destruct (split_go_cons (String c0 sep)
                (Nat.pred (String.length (String c0 sep))) "" s)
      as (y & rest & ->).
    by eexists _, _, _.
  - intros Hs. by apply IH.
Qed.

End SplitFacts.

(** ** The age read off an expiry message *)

(** X1. Whenever [signing.loads] raises [SignatureExpired], the token is
    authentic, its age exceeds the bound, and [parse_age] reads exactly
    that age off the message of the exception, in any world and without
    changing it. *)
Theorem X1_parse_age_reads_the_age {P : Platform} {Laws : PlatformLaws P}
    (s salt : string) (m : Z) (w w' : World) (msg : string) :
  fst (signing.loads s salt (Some m) w) = Raise (SignatureExpired msg) →
  ∃ (payload : pyval) (issued : Z),
    signing.unsign s salt = Some (payload, issued)
    ∧ m * MICRO < signing.age (next_reading w) issued
    ∧ parse_age msg w'
      = (Return (signing.age (next_reading w) issued), w').
Proof.
  rewrite run_loads. unfold signing.verify.
  destruct (signing.unsign s salt) as [[payload issued]|]; [|done].
  destruct (Z.gtb_spec (signing.age (next_reading w) issued) (m * MICRO))
    as [Hgt|Hle]; [|done].
  cbn [fst]. intros [= <-].
  exists payload, issued. split; [done|]. split; [lia|].
  apply parse_age_expired_message.
Qed.

Lemma X1_parse_age_reads_the_age_witness :
  ∃ (payload : pyval) (issued : Z),
    signing.unsign (P:=Toy.platform)
      (signing.sign_at (P:=Toy.platform) 100000000 "password_recovery"
         (PInt 42)) "password_recovery"
    = Some (payload, issued)
    ∧ 3 * MICRO < signing.age 105000000 issued
    ∧ parse_age (P:=Toy.platform)
        "Signature age 00000010110100100011001 > 3 seconds"
        (Toy.world 0 0 0 [])
      = (Return (signing.age 105000000 issued), Toy.world 0 0 0 []).
Proof.
  apply (X1_parse_age_reads_the_age (Laws:=ToyFacts.laws)
           (signing.sign_at (P:=Toy.platform) 100000000 "password_recovery"
              (PInt 42))
           "password_recovery" 3 (Toy.world 105000000 0 0 [])
           (Toy.world 0 0 0 [])).
  vm_compute. reflexivity.
Defined.

(** X2. [parse_age] raises [IndexError] exactly for the messages that do
    not contain the text ['Signature age ']: with the text present, the
    two indexings succeed and only the conversion to a number can still
    fail. *)
Theorem X2_parse_age_index_error {P : Platform} (msg : string) (w : World) :
  parse_age msg w = (Raise IndexError, w)
  ↔ Py.contains "Signature age " msg = false.
Proof.
  unfold parse_age, Py.split. split.
  - destruct (Py.contains "Signature age " msg) eqn:Hc; [|done].
    destruct (SplitFacts.split_go_present _ _ "" _ Hc) as (x & y & rest & ->).
    rewrite run_bind. unfold getitem at 1. cbn [lookup list_lookup].
    rewrite run_ret. cbn beta iota.
    destruct (SplitFacts.split_go_cons " >" 0 "" y) as (text & rest' & ->).
    rewrite run_bind. unfold getitem. cbn [lookup list_lookup].
    rewrite run_ret. cbn beta iota.
    unfold float. by destruct (float_of_str text).
  - intros Hc. rewrite (SplitFacts.split_go_absent _ _ _ Hc).
    reflexivity.
Qed.

(** ** Every outcome of [loads_with_timestamp] *)

Lemma loads_with_timestamp_cases {P : Platform} {Laws : PlatformLaws P}
    (value salt : string) (w : World) :
  match signing.unsign value salt with
  | None => loads_with_timestamp value salt w = (Raise BadSignature, tick w)
  | Some (payload, issued) =>
      let age := signing.age (next_reading w) issued in
      if age >? -1 * MICRO
      then loads_with_timestamp value salt w
           = (Return (Some (next_reading (tick w) - age, payload)),
              tick (tick (tick w)))
      else loads_with_timestamp value salt w = (Return None, tick w)
  end.
Proof.
  destruct (signing.unsign value salt) as [[payload issued]|] eqn:Hu.
  - cbv zeta.
    pose proof (verify_authentic value salt (Some (-1)) (next_reading w)
                  payload issued Hu) as Hv.
    cbn beta iota in Hv.
    destruct (signing.age (next_reading w) issued >? -1 * MICRO).
    + exact (loads_with_timestamp_expired _ _ _ _ _ Hv).
    + exact (loads_with_timestamp_not_expired _ _ _ _ _ Hv).
  - by apply loads_with_timestamp_invalid.
Qed.

(** X3. [loads_with_timestamp] has three outcomes and no other: a token
    that does not authenticate raises [BadSignature]; an authentic token
    whose age is above minus one second returns the pair of the second
    clock reading less that age and the payload; an authentic token dated
    a second or more ahead of the clock returns [None]. In particular the
    only exception that leaves the function is [BadSignature]: the expiry
    it provokes, and the indexing and conversion of its message, never
    fail outwards. *)
Theorem X3_loads_with_timestamp_outcomes {P : Platform}
    {Laws : PlatformLaws P} (value salt : string) (w : World) :
  match signing.unsign value salt with
  | None => loads_with_timestamp value salt w = (Raise BadSignature, tick w)
  | Some (payload, issued) =>
      let age := signing.age (next_reading w) issued in
      if age >? -1 * MICRO
      then loads_with_timestamp value salt w
           = (Return (Some (next_reading (tick w) - age, payload)),
              tick (tick (tick w)))
      else loads_with_timestamp value salt w = (Return None, tick w)
  end
  ∧ ∀ e, fst (loads_with_timestamp value salt w) = Raise e → e = BadSignature.
Proof.
  pose proof (loads_with_timestamp_cases value salt w) as Hcases.
  split; [exact Hcases|].
  intros e. destruct (signing.unsign value salt) as [[payload issued]|].
  - cbv zeta in Hcases.
    destruct (signing.age (next_reading w) issued >? -1 * MICRO);
      by rewrite Hcases.
  - rewrite Hcases. by intros [= <-].
Qed.

Lemma X3_loads_with_timestamp_outcomes_witness :
  loads_with_timestamp (P:=Toy.platform) "no colon here"
    "password_recovery_url" (Toy.world 1 2 3 [])
  = (Raise BadSignature, tick (Toy.world 1 2 3 [])).
Proof.
  exact (proj1 (X3_loads_with_timestamp_outcomes (Laws:=ToyFacts.laws)
                  "no colon here" "password_recovery_url"
                  (Toy.world 1 2 3 []))).
Defined.

(** ** The confirmation page *)

(** [RecoverDone.get_context_data], by what [loads_with_timestamp] does
    with the signature of the URL. *)
Lemma run_RecoverDone {P : Platform} (self : RecoverDone.t)
    (kw : gmap string ctxval) (value : string) (w : World) :
  RecoverDone.kwargs self !! "signature" = Some value →
  RecoverDone.get_context_data self kw w
  = match loads_with_timestamp value SaltMixin.url_salt w with
    | (Return (Some (timestamp, email)), w') =>
        (Return (<["email" := CObj email]>
                   (<["timestamp" := CTime timestamp]> kw)), w')
    | (Return None, w') => (Raise TypeError, w')
    | (Raise e, w') =>
        if is_BadSignature e
        then (if RecoverDone.fail_noexistent_user self
              then Raise Http404 else Return kw, w')
        else (Raise e, w')
    end.
Proof.
  intros Hsig. unfold RecoverDone.get_context_data.
  rewrite run_try_except, (getkey_Some _ _ _ Hsig). run.
  destruct (loads_with_timestamp value SaltMixin.url_salt w)
    as [[[[ts payload]|]|e] w']; cbn beta iota; try reflexivity.
  destruct (is_BadSignature e); [|reflexivity].
  by destruct (RecoverDone.fail_noexistent_user self).
Qed.

(** X4. Whenever the confirmation page returns a context, that context is
    either the one the base class made, untouched, or that one with both
    [timestamp] and [email] set; every other entry is kept as it was. *)
Theorem X4_confirmation_context_frame {P : Platform}
    (self : RecoverDone.t) (kw ctx : gmap string ctxval) (w : World) :
  fst (RecoverDone.get_context_data self kw w) = Return ctx →
  (ctx = kw
   ∨ ∃ (ts : Time) (payload : pyval),
       ctx = <["email" := CObj payload]> (<["timestamp" := CTime ts]> kw))
  ∧ ∀ k : string, k ≠ "timestamp" → k ≠ "email" → ctx !! k = kw !! k.
Proof.
  intros Hret.
  assert (Hshape : ctx = kw
            ∨ ∃ (ts : Time) (payload : pyval),
                ctx = <["email" := CObj payload]>
                        (<["timestamp" := CTime ts]> kw)).
  { destruct (RecoverDone.kwargs self !! "signature") as [value|] eqn:Hsig.
    - rewrite (run_RecoverDone _ _ _ _ Hsig) in Hret.
      destruct (loads_with_timestamp value SaltMixin.url_salt w)
        as [[[[ts payload]|]|e] w']; cbn [fst] in Hret.
      + injection Hret as <-. right. by exists ts, payload.
      + done.
      + destruct (is_BadSignature e); [|done].
        destruct (RecoverDone.fail_noexistent_user self); [done|].
        injection Hret as <-. by left.
    - unfold RecoverDone.get_context_data in Hret.
      rewrite run_try_except in Hret. unfold getkey in Hret.
      rewrite Hsig in Hret. done. }
  split; [exact Hshape|].
  intros k Hts Hemail. destruct Hshape as [->|(ts & payload & ->)]; [done|].
  by rewrite !lookup_insert_ne.
Qed.

Lemma X4_confirmation_context_frame_witness :
  ({["site" := CStr "example.com"]} : gmap string ctxval)
    = {["site" := CStr "example.com"]}
  ∨ ∃ (ts : Time) (payload : pyval),
      ({["site" := CStr "example.com"]} : gmap string ctxval)
      = <["email" := CObj payload]>
          (<["timestamp" := CTime ts]> {["site" := CStr "example.com"]}).
Proof.
  refine (proj1 (X4_confirmation_context_frame (P:=Toy.platform)
                   (RecoverDone.mk false "password_reset/reset_sent.html"
                      {["signature" := "forged"]})
                   {["site" := CStr "example.com"]}
                   {["site" := CStr "example.com"]}
                   (Toy.world 1 2 3 []) _)).
  vm_compute. reflexivity.
Defined.

(** X5. The only exceptions that leave the confirmation page are
    [KeyError], when the URL carries no [signature]; [Http404], when the
    signature does not authenticate and [fail_noexistent_user] is set; and
    [TypeError], when the signature is authentic but dated a second or
    more ahead of the clock. A signing failure never leaves the page, and
    with [fail_noexistent_user] unset [Http404] is never raised. *)
Theorem X5_confirmation_page_exceptions {P : Platform}
    {Laws : PlatformLaws P} (self : RecoverDone.t)
    (kw : gmap string ctxval) (w : World) (e : exn) :
  fst (RecoverDone.get_context_data self kw w) = Raise e →
  (e = KeyError ∧ RecoverDone.kwargs self !! "signature" = None)
  ∨ (e = Http404
     ∧ RecoverDone.fail_noexistent_user self = true
     ∧ ∃ value, RecoverDone.kwargs self !! "signature" = Some value
                ∧ signing.unsign value SaltMixin.url_salt = None)
  ∨ (e = TypeError
     ∧ ∃ value payload issued,
         RecoverDone.kwargs self !! "signature" = Some value
         ∧ signing.unsign value SaltMixin.url_salt = Some (payload, issued)
         ∧ signing.age (next_reading w) issued ≤ -1 * MICRO).
Proof.
  destruct (RecoverDone.kwargs self !! "signature") as [value|] eqn:Hsig.
  - rewrite (run_RecoverDone _ _ _ _ Hsig).
    pose proof (loads_with_timestamp_cases value SaltMixin.url_salt w)
      as Hcases.
    destruct (signing.unsign value SaltMixin.url_salt)
      as [[payload issued]|] eqn:Hu.
    + cbv zeta in Hcases.
      destruct (Z.gtb_spec (signing.age (next_reading w) issued)
                  (-1 * MICRO)) as [Hgt|Hle]; rewrite Hcases; [done|].
      cbn [fst]. intros [= <-]. right. right.
      split; [done|]. by exists value, payload, issued.
    + rewrite Hcases. cbn [is_BadSignature].
      destruct (RecoverDone.fail_noexistent_user self); [|done].
      cbn [fst]. intros [= <-]. right. left.
      split; [done|]. split; [done|]. by exists value.
  - unfold RecoverDone.get_context_data.
    rewrite run_try_except. unfold getkey. rewrite Hsig.
    rewrite run_bind, run_raise. cbn [is_BadSignature fst].
    intros [= <-]. by left.
Qed.

Lemma X5_confirmation_page_exceptions_witness :
  (Http404 = KeyError
   ∧ ({["signature" := "forged"]} : gmap string string) !! "signature" = None)
  ∨ (Http404 = Http404
     ∧ true = true
     ∧ ∃ value,
         ({["signature" := "forged"]} : gmap string string) !! "signature"
           = Some value
         ∧ signing.unsign (P:=Toy.platform) value SaltMixin.url_salt = None)
  ∨ (Http404 = TypeError
     ∧ ∃ value payload issued,
         ({["signature" := "forged"]} : gmap string string) !! "signature"
           = Some value
         ∧ signing.unsign (P:=Toy.platform) value SaltMixin.url_salt
           = Some (payload, issued)
         ∧ signing.age (next_reading (Toy.world 1 2 3 [])) issued
           ≤ -1 * MICRO).
Proof.
  refine (X5_confirmation_page_exceptions (Laws:=ToyFacts.laws)
            (RecoverDone.as_view {["signature" := "forged"]}) ∅
            (Toy.world 1 2 3 []) Http404 _).
  vm_compute. reflexivity.
Defined.

(** ** From the request to the confirmation page *)

(** X6. The acknowledgement token that [Recover.form_valid] puts in its
    redirect for a matched account whose notification the mail sender
    took, read by the confirmation page at any later clock reading, gives
    a context whose [email] is the identifier
    that was disclosed at signing (the username when [search_fields] is
    only [username], else the email) and whose [timestamp] is the second
    the token was signed in, moved by the time between the page's two
    clock readings. *)
Theorem X6_acknowledgement_shown {P : Platform} {Laws : PlatformLaws P}
    (self : Recover.t) (form : RecoveryForm) (u : User) (w0 w : World)
    (page : RecoverDone.t) (kw : gmap string ctxval) :
  cleaned_user form = Some u →
  mailer w0 (Recover.notification self u (next_reading w0)) = None →
  0 ≤ next_reading (tick w0) ≤ next_reading w →
  ∃ (token : string) (self' : Recover.t) (w0' : World),
    Recover.form_valid self form w0
    = (Return (HttpResponseRedirect (reverse "password_reset_sent" [token]),
               self'), w0')
    ∧ (RecoverDone.kwargs page !! "signature" = Some token →
       RecoverDone.get_context_data page kw w
       = (Return
            (<["email" :=
                 CObj (PStr (if Recover.only_username
                                  (Recover.search_fields self)
                             then username u else email u))]>
               (<["timestamp" :=
                    CTime (signing.timestamp (next_reading (tick w0)) * MICRO
                           + (next_reading (tick w) - next_reading w))]>
                  kw)),
          tick (tick (tick w)))).
Proof.
  intros Hu Hsent [Hepoch Hlater].
  eexists _, _, _. split; [by apply run_form_valid_match|].
  intros Hsig. rewrite (run_RecoverDone _ _ _ _ Hsig).
  pose proof (loads_with_timestamp_cases
                (signing.sign_at (next_reading (tick w0)) SaltMixin.url_salt
                   (PStr (if Recover.only_username (Recover.search_fields self)
                          then username u else email u)))
                SaltMixin.url_salt w) as Hcases.
  rewrite unsign_sign_at in Hcases. cbv zeta in Hcases.
  assert (Hsec : signing.timestamp (next_reading (tick w0)) * MICRO
                 ≤ next_reading (tick w0)).
  { unfold signing.timestamp, MICRO. rewrite Z.quot_div_nonneg by lia.
    pose proof (Z.mod_pos_bound (next_reading (tick w0)) 1000000 ltac:(lia)).
    pose proof (Z.div_mod (next_reading (tick w0)) 1000000 ltac:(lia)). lia. }
  destruct (Z.gtb_spec
              (signing.age (next_reading w)
                 (signing.timestamp (next_reading (tick w0))))
              (-1 * MICRO)) as [Hgt|Hle].
  - rewrite Hcases.
    replace (next_reading (tick w)
             - signing.age (next_reading w)
                 (signing.timestamp (next_reading (tick w0))))
      with (signing.timestamp (next_reading (tick w0)) * MICRO
            + (next_reading (tick w) - next_reading w))
      by (unfold signing.age; lia).
    reflexivity.
  - exfalso. unfold signing.age, MICRO in *. lia.
Qed.

Lemma X6_acknowledgement_shown_witness :
  ∃ (token : string) (self' : Recover.t) (w0' : World),
    Recover.form_valid (P:=Toy.platform)
      (Recover.as_view (mkRequest "example.com" true "/recover/"))
      (mkForm (Some (mkUser 42 "alice" "alice@example.com")) "alice")
      (Toy.world 100000000 100500000 0 [])
    = (Return (HttpResponseRedirect (reverse "password_reset_sent" [token]),
               self'), w0').
Proof.
  destruct (X6_acknowledgement_shown (Laws:=ToyFacts.laws)
              (Recover.as_view (mkRequest "example.com" true "/recover/"))
              (mkForm (Some (mkUser 42 "alice" "alice@example.com")) "alice")
              (mkUser 42 "alice" "alice@example.com")
              (Toy.world 100000000 100500000 0 [])
              (Toy.world 160000000 160000001 0 [])
              (RecoverDone.as_view ∅) ∅ eq_refl eq_refl)
    as (token & self' & w0' & Hrun & _).
  - vm_compute. split; discriminate.
  - by exists token, self', w0'.
Defined.

(** ** Tokens are bound to their view *)

(** X7. Under a collision-free keyed hash, the token that
    [Recover.form_valid] puts in its redirect, whether it acknowledges a
    matched account, the mail sender having taken the notification, or is
    a decoy, never authorizes a reset: given to [Reset.dispatch] at any
    time, it gets the page rendered with [invalid] set, and the account
    lookup and the form view are not reached. *)
Theorem X7_acknowledgement_does_not_reset {P : Platform}
    {Laws : PlatformLaws P} (Hsep : SaltSeparation P)
    (self : Recover.t) (form : RecoveryForm) (w0 w : World)
    (V : Reset.t → HttpRequest → M HttpResponse) (view : Reset.t)
    (rq : HttpRequest) (kw : gmap string string) :
  (∀ u, cleaned_user form = Some u →
        mailer w0 (Recover.notification self u (next_reading w0)) = None) →
  ∃ (token : string) (self' : Recover.t) (w0' : World),
    Recover.form_valid self form w0
    = (Return (HttpResponseRedirect (reverse "password_reset_sent" [token]),
               self'), w0')
    ∧ (kw !! "token" = Some token →
       Reset.dispatch V view rq kw w
       = (Return (TemplateResponse (Reset.template_name view)
                    {["invalid" := CBool true]}), tick w)).
Proof.
  intros Hsent.
  assert (Hrej : ∀ t0 salt' obj,
            salt' ≠ SaltMixin.salt →
            kw !! "token" = Some (signing.sign_at t0 salt' obj) →
            Reset.dispatch V view rq kw w
            = (Return (TemplateResponse (Reset.template_name view)
                         {["invalid" := CBool true]}), tick w)).
  { intros t0 salt' obj Hne Htok.
    rewrite (run_Reset_dispatch _ _ _ _ _ _ Htok).
    by rewrite (proj2 (verify_Invalid _ _ _ _)
                  (unsign_other_salt t0 salt' SaltMixin.salt obj Hsep Hne)). }
  destruct (cleaned_user form) as [u|] eqn:Hu.
  - eexists _, _, _.
    split; [exact (run_form_valid_match _ _ _ _ Hu (Hsent u eq_refl))|].
    by apply Hrej.
  - eexists _, _, _. split; [by apply run_form_valid_no_match|].
    by apply Hrej.
Qed.

Lemma X7_acknowledgement_does_not_reset_witness :
  ∃ (token : string) (self' : Recover.t) (w0' : World),
    Recover.form_valid (P:=Toy.platform)
      (Recover.as_view (mkRequest "example.com" true "/recover/"))
      (mkForm None "nobody") (Toy.world 100000000 0 0 [])
    = (Return (HttpResponseRedirect (reverse "password_reset_sent" [token]),
               self'), w0').
Proof.
  destruct (X7_acknowledgement_does_not_reset (Laws:=ToyFacts.laws)
              ToyFacts.separation
              (Recover.as_view (mkRequest "example.com" true "/recover/"))
              (mkForm None "nobody") (Toy.world 100000000 0 0 [])
              (Toy.world 100000001 0 0 []) Toy.form_view Reset.as_view
              (mkRequest "example.com" true "/reset/") ∅)
    as (token & self' & w0' & Hrun & _).
  - intros u Hu. reflexivity.
  - by exists token, self', w0'.
Defined.

(** X8. Under a collision-free keyed hash, the reset token that
    [Recover.form_valid] mails for a matched account, when the mail
    sender takes the notification, carries the
    account's primary key under the reset salt, and is no acknowledgement:
    shown to the confirmation page it is answered like any forged
    signature, with [Http404] or with the context of the base class. *)
Theorem X8_reset_token_is_no_acknowledgement {P : Platform}
    {Laws : PlatformLaws P} (Hsep : SaltSeparation P)
    (self : Recover.t) (form : RecoveryForm) (u : User) (w0 w : World)
    (page : RecoverDone.t) (kw : gmap string ctxval) :
  cleaned_user form = Some u →
  mailer w0 (Recover.notification self u (next_reading w0)) = None →
  ∃ (mail : Mail) (response : HttpResponse) (self' : Recover.t)
    (w0' : World),
    Recover.form_valid self form w0 = (Return (response, self'), w0')
    ∧ outbox w0' = outbox w0 ++ [mail]
    ∧ signing.unsign (ec_token (mail_context mail)) SaltMixin.salt
      = Some (PInt (pk u), signing.timestamp (next_reading w0))
    ∧ (RecoverDone.kwargs page !! "signature"
         = Some (ec_token (mail_context mail)) →
       RecoverDone.get_context_data page kw w
       = (if RecoverDone.fail_noexistent_user page
          then Raise Http404 else Return kw, tick w)).
Proof.
  intros Hu Hsent. eexists _, _, _, _.
  split; [by apply run_form_valid_match|].
  split; [reflexivity|]. cbn [Recover.notification mail_context ec_token].
  split; [apply unsign_sign_at|].
  intros Hsig. apply (RecoverDone_invalid _ _ _ _ Hsig).
  by apply unsign_other_salt.
Qed.

Lemma X8_reset_token_is_no_acknowledgement_witness :
  ∃ (mail : Mail) (response : HttpResponse) (self' : Recover.t)
    (w0' : World),
    Recover.form_valid (P:=Toy.platform)
      (Recover.as_view (mkRequest "example.com" true "/recover/"))
      (mkForm (Some (mkUser 42 "alice" "alice@example.com")) "alice")
      (Toy.world 100000000 100000001 0 [])
    = (Return (response, self'), w0')
    ∧ signing.unsign (P:=Toy.platform) (ec_token (mail_context mail))
        SaltMixin.salt
      = Some (PInt 42, 100).
Proof.
  destruct (X8_reset_token_is_no_acknowledgement (Laws:=ToyFacts.laws)
              ToyFacts.separation
              (Recover.as_view (mkRequest "example.com" true "/recover/"))
              (mkForm (Some (mkUser 42 "alice" "alice@example.com")) "alice")
              (mkUser 42 "alice" "alice@example.com")
              (Toy.world 100000000 100000001 0 [])
              (Toy.world 100000002 0 0 [])
              (RecoverDone.as_view ∅) ∅ eq_refl eq_refl)
    as (mail & response & self' & w0' & Hrun & _ & Huns & _).
  exists mail, response, self', w0'. split; [exact Hrun|exact Huns].
Defined.

(** ** The reset view hands on the account of the token *)

Lemma find_pk (n : Z) (l : list User) :
  (∃ u, u ∈ l ∧ pk u = n) →
  ∃ u, List.find (λ u, bool_decide (pk u = n)) l = Some u
       ∧ u ∈ l ∧ pk u = n.
Proof.
  intros (u0 & Hin & Hpk). induction l as [|v l IH].
  - by apply elem_of_nil in Hin.
  - cbn [List.find]. destruct (decide (pk v = n)) as [Hv|Hv].
    + rewrite bool_decide_eq_true_2 by done.
      exists v. split; [done|]. split; [by left|done].
    + rewrite bool_decide_eq_false_2 by done.
      apply elem_of_cons in Hin as [->|Hin]; [done|].
      destruct (IH Hin) as (u & Hfind & Hu & Hpku).
      exists u. split; [done|]. split; [by right|done].
Qed.

(** [Reset.dispatch] once the token is [Valid] and an account has its
    key. *)
Lemma run_Reset_dispatch_valid {P : Platform}
    (V : Reset.t → HttpRequest → M HttpResponse) (self : Reset.t)
    (rq : HttpRequest) (kw : gmap string string) (token : string)
    (w : World) (n issued : Z) :
  kw !! "token" = Some token →
  signing.verify token SaltMixin.salt (Some (Reset.token_expires self))
    (next_reading w) = Valid (PInt n) issued →
  (∃ u, u ∈ users w ∧ pk u = n) →
  ∃ u : User,
    u ∈ users w ∧ pk u = n
    ∧ Reset.dispatch V self rq kw w
      = V (Reset.set_user (Reset.set_request self rq kw) u) rq (tick w).
Proof.
  intros Htok Hvalid Hacc.
  destruct (find_pk n (users w) Hacc) as (u & Hfind & Hin & Hpk).
  exists u. split; [done|]. split; [done|].
  rewrite (run_Reset_dispatch _ _ _ _ _ _ Htok), Hvalid, run_bind.
  unfold get_object_or_404. cbn [users tick]. by rewrite Hfind.
Qed.

(** X9. When the token is [Valid] under the reset salt within
    [token_expires] and the account table holds an account with the
    primary key it carries, [Reset.dispatch] enters the form view with
    [user] set to an account of the table with exactly that key, reading
    the clock once and changing nothing else; the keyword arguments that
    [get_form_kwargs] then builds for the form carry that account as
    [user]. *)
Theorem X9_reset_hands_on_the_encoded_account {P : Platform}
    (V : Reset.t → HttpRequest → M HttpResponse) (self : Reset.t)
    (rq : HttpRequest) (kw : gmap string string) (token : string)
    (w w2 : World) (n issued : Z) (base : gmap string formval) :
  kw !! "token" = Some token →
  signing.verify token SaltMixin.salt (Some (Reset.token_expires self))
    (next_reading w) = Valid (PInt n) issued →
  (∃ u, u ∈ users w ∧ pk u = n) →
  ∃ u : User,
    u ∈ users w ∧ pk u = n
    ∧ Reset.dispatch V self rq kw w
      = V (Reset.set_user (Reset.set_request self rq kw) u) rq (tick w)
    ∧ Reset.get_form_kwargs
        (Reset.set_user (Reset.set_request self rq kw) u) base w2
      = (Return (<["user" := FUser u]> base), w2).
Proof.
  intros Htok Hvalid Hacc.
  destruct (run_Reset_dispatch_valid V self rq kw token w n issued
              Htok Hvalid Hacc) as (u & Hin & Hpk & Hrun).
  exists u. repeat split; done.
Qed.

Lemma X9_reset_hands_on_the_encoded_account_witness :
  ∃ u : User,
    u ∈ [mkUser 7 "bob" "bob@example.com";
         mkUser 42 "alice" "alice@example.com"]
    ∧ pk u = 42.
Proof.
  destruct (X9_reset_hands_on_the_encoded_account (P:=Toy.platform)
              Toy.form_view Reset.as_view
              (mkRequest "example.com" true "/reset/")
              {["token" := signing.sign_at (P:=Toy.platform) 100000000
                             "password_recovery" (PInt 42)]}
              (signing.sign_at (P:=Toy.platform) 100000000
                 "password_recovery" (PInt 42))
              (Toy.world 100000001 0 0
                 [mkUser 7 "bob" "bob@example.com";
                  mkUser 42 "alice" "alice@example.com"])
              (Toy.world 0 0 0 []) 42 100 ∅)
    as (u & Hin & Hpk & _).
  - apply lookup_singleton_eq.
  - rewrite (verify_authentic _ _ _ _ _ _
               (unsign_sign_at (Laws:=ToyFacts.laws) _ _ _)).
    reflexivity.
  - exists (mkUser 42 "alice" "alice@example.com").
    split; [|reflexivity]. right. left.
  - exists u. split; [exact Hin|exact Hpk].
Defined.

(** X10. From the request to the reset: the token that
    [Recover.form_valid] mails to a matched account, when the mail sender
    takes the notification, given to
    [Reset.dispatch] while it is no older than [token_expires] and the
    account is in the table, enters the form view with [user] set to an
    account that has the same primary key. *)
Theorem X10_mailed_token_reaches_the_form {P : Platform}
    {Laws : PlatformLaws P} (self : Recover.t) (form : RecoveryForm)
    (u : User) (w0 w : World)
    (V : Reset.t → HttpRequest → M HttpResponse) (view : Reset.t)
    (rq : HttpRequest) :
  cleaned_user form = Some u →
  mailer w0 (Recover.notification self u (next_reading w0)) = None →
  u ∈ users w →
  signing.age (next_reading w) (signing.timestamp (next_reading w0))
    ≤ Reset.token_expires view * MICRO →
  ∃ (mail : Mail) (response : HttpResponse) (self' : Recover.t)
    (w0' : World) (u' : User),
    Recover.form_valid self form w0 = (Return (response, self'), w0')
    ∧ outbox w0' = outbox w0 ++ [mail]
    ∧ mail_recipients mail = [email u]
    ∧ u' ∈ users w ∧ pk u' = pk u
    ∧ Reset.dispatch V view rq
        {["token" := ec_token (mail_context mail)]} w
      = V (Reset.set_user
             (Reset.set_request view rq
                {["token" := ec_token (mail_context mail)]}) u') rq (tick w).
Proof.
  intros Hu Hsent Hin Hfresh.
  set (token := signing.sign_at (next_reading w0) SaltMixin.salt
                  (PInt (pk u))).
  assert (Hvalid : signing.verify token SaltMixin.salt
                     (Some (Reset.token_expires view)) (next_reading w)
                   = Valid (PInt (pk u))
                       (signing.timestamp (next_reading w0))).
  { unfold token.
    rewrite (verify_authentic _ _ _ _ _ _ (unsign_sign_at _ _ _)).
    destruct (Z.gtb_spec
                (signing.age (next_reading w)
                   (signing.timestamp (next_reading w0)))
                (Reset.token_expires view * MICRO)); [lia|done]. }
  destruct (run_Reset_dispatch_valid V view rq {["token" := token]} token w
              (pk u) _ (lookup_singleton_eq _ _) Hvalid)
    as (u' & Hin' & Hpk' & Hrun); [by exists u|].
  eexists _, _, _, _, u'.
  split; [by apply run_form_valid_match|].
  split; [reflexivity|]. split; [reflexivity|].
  split; [done|]. split; [done|]. exact Hrun.
Qed.

Lemma X10_mailed_token_reaches_the_form_witness :
  ∃ (mail : Mail) (response : HttpResponse) (self' : Recover.t)
    (w0' : World),
    Recover.form_valid (P:=Toy.platform)
      (Recover.as_view (mkRequest "example.com" true "/recover/"))
      (mkForm (Some (mkUser 42 "alice" "alice@example.com")) "alice")
      (Toy.world 100000000 100000001 0 [])
    = (Return (response, self'), w0')
    ∧ mail_recipients mail = ["alice@example.com"].
Proof.
  destruct (X10_mailed_token_reaches_the_form (Laws:=ToyFacts.laws)
              (Recover.as_view (mkRequest "example.com" true "/recover/"))
              (mkForm (Some (mkUser 42 "alice" "alice@example.com")) "alice")
              (mkUser 42 "alice" "alice@example.com")
              (Toy.world 100000000 100000001 0 [])
              (Toy.world 160000000 0 0
                 [mkUser 42 "alice" "alice@example.com"])
              Toy.form_view Reset.as_view
              (mkRequest "example.com" true "/reset/") eq_refl eq_refl)
    as (mail & response & self' & w0' & u' & Hrun & _ & Hto & _).
  - left.
  - vm_compute. discriminate.
  - exists mail, response, self', w0'. split; [exact Hrun|exact Hto].
Defined.

(** ** The attributes the views set on themselves *)

(** X11. [Recover.form_valid] fails only through the mail sender.
    Whenever it returns, the response is a redirect, [mail_signature] is
    assigned on the view it leaves, and [get_success_url] on that view
    returns the very URL of the redirect. Whenever it raises, an account
    had matched and the exception is the one the mail sender raised on
    the notification; one clock reading was taken and nothing was handed
    to the outbox. *)
Theorem X11_success_url {P : Platform}
    (self : Recover.t) (form : RecoveryForm) (w w2 : World) :
  (∀ (response : HttpResponse) (self' : Recover.t) (w' : World),
     Recover.form_valid self form w = (Return (response, self'), w') →
     ∃ url : Url,
       response = HttpResponseRedirect url
       ∧ Recover.get_success_url self' w2 = (Return url, w2)
       ∧ (∀ u, cleaned_user form = Some u →
               mailer w (Recover.notification self u (next_reading w)) = None))
  ∧ (∀ (e : exn) (w' : World),
       Recover.form_valid self form w = (Raise e, w') →
       w' = tick w
       ∧ outbox w' = outbox w
       ∧ ∃ u, cleaned_user form = Some u
              ∧ mailer w (Recover.notification self u (next_reading w))
                = Some e).
Proof.
  destruct (cleaned_user form) as [u|] eqn:Hu.
  - rewrite (run_form_valid_found _ _ _ _ Hu).
    destruct (mailer w (Recover.notification self u (next_reading w)))
      as [e0|] eqn:Hm.
    + split; [by intros response self' w' Hret|].
      intros e w' [= <- <-]. split; [done|]. split; [done|].
      by exists u.
    + cbv zeta. split; [|by intros e w' Hret].
      intros response self' w' [= <- <- <-]. eexists.
      split; [reflexivity|]. split; [reflexivity|].
      intros u' [= <-]. exact Hm.
  - rewrite (run_form_valid_no_match _ _ _ Hu). cbv zeta.
    split; [|by intros e w' Hret].
    intros response self' w' [= <- <- <-]. eexists.
    split; [reflexivity|]. split; [reflexivity|]. by intros u' Hu'.
Qed.

(** X12. [Reset.get_context_data] looks for the key [invalid], not for
    its value: whenever the key is present the context is returned as it
    is and [self.user] is not read. Without the key, a view that
    [dispatch] has given a user and a URL token adds that user's
    [username] and that [token] and keeps every other entry; a view with
    no user raises [AttributeError]. *)
Theorem X12_reset_context (self : Reset.t) (kw : gmap string ctxval)
    (w : World) :
  (is_Some (kw !! "invalid") →
   Reset.get_context_data self kw w = (Return kw, w))
  ∧ (kw !! "invalid" = None →
     ∀ (u : User) (token : string),
       Reset.user self = Some u →
       Reset.kwargs self !! "token" = Some token →
       ∃ ctx : gmap string ctxval,
         Reset.get_context_data self kw w = (Return ctx, w)
         ∧ ctx !! "username" = Some (CStr (username u))
         ∧ ctx !! "token" = Some (CStr token)
         ∧ ctx !! "invalid" = None
         ∧ ∀ k : string, k ≠ "username" → k ≠ "token" → ctx !! k = kw !! k)
  ∧ (kw !! "invalid" = None →
     Reset.user self = None →
     Reset.get_context_data self kw w = (Raise AttributeError, w)).
Proof.
  unfold Reset.get_context_data, ContextMixin_get_context_data.
  split; [|split].
  - intros Hinv. by rewrite bool_decide_eq_true_2.
  - intros Hnone u token Hu Htok.
    rewrite bool_decide_eq_false_2 by (rewrite Hnone; by intros [? ?]).
    rewrite Hu, (getkey_Some _ _ _ Htok). run.
    eexists. split; [reflexivity|].
    split.
    { rewrite lookup_insert_ne by done. by rewrite lookup_insert_eq. }
    split; [by rewrite lookup_insert_eq|].
    split; [by rewrite !lookup_insert_ne|].
    intros k Hk1 Hk2. by rewrite !lookup_insert_ne.
  - intros Hnone Hu.
    rewrite bool_decide_eq_false_2 by (rewrite Hnone; by intros [? ?]).
    by rewrite Hu.
Qed.

(** X13. [Recover.get_form_kwargs] hands the view's [case_sensitive],
    [search_fields] and [fail_noexistent_user] to the form, in place of
    any entry of those names that the base class made, and
    [Recover.get_context_data] hands the full path of the request to the
    template as [url], in place of any [url] it was called with; every
    other entry is kept. *)
Theorem X13_recover_view_passes_its_settings (self : Recover.t)
    (base : gmap string formval) (kw : gmap string ctxval) :
  Recover.get_form_kwargs self base !! "case_sensitive"
    = Some (FBool (Recover.case_sensitive self))
  ∧ Recover.get_form_kwargs self base !! "search_fields"
    = Some (FFields (Recover.search_fields self))
  ∧ Recover.get_form_kwargs self base !! "fail_noexistent_user"
    = Some (FBool (Recover.fail_noexistent_user self))
  ∧ (∀ k : string,
       k ≠ "case_sensitive" → k ≠ "search_fields" →
       k ≠ "fail_noexistent_user" →
       Recover.get_form_kwargs self base !! k = base !! k)
  ∧ Recover.get_context_data self kw !! "url"
    = Some (CStr (get_full_path (Recover.request self)))
  ∧ (∀ k : string, k ≠ "url" →
       Recover.get_context_data self kw !! k = kw !! k).
Proof.
  unfold Recover.get_form_kwargs, Recover.get_context_data,
    ContextMixin_get_context_data.
  split.
  { do 2 (rewrite lookup_insert_ne by done). by rewrite lookup_insert_eq. }
  split.
  { rewrite lookup_insert_ne by done. by rewrite lookup_insert_eq. }
  split; [by rewrite lookup_insert_eq|].
  split; [intros k H1 H2 H3; by rewrite !lookup_insert_ne|].
  split; [by rewrite lookup_insert_eq|].
  intros k Hk. by rewrite lookup_insert_ne.
Qed.

(** X14. On a view with no matched account, [get_email_context] and
    [send_notification] raise [AttributeError] before anything happens:
    no token is signed, the clock is not read and no mail is handed over.
    [form_valid] does not get there: without a match it leaves the outbox
    as it was. *)
Theorem X14_no_account_no_mail {P : Platform}
    (self : Recover.t) (form : RecoveryForm) (w : World) :
  Recover.user self = None →
  Recover.get_email_context self w = (Raise AttributeError, w)
  ∧ Recover.send_notification self w = (Raise AttributeError, w)
  ∧ (cleaned_user form = None →
     ∃ r, Recover.form_valid self form w = (Return r, tick w)
          ∧ outbox (tick w) = outbox w).
Proof.
  intros Hnone. split; [|split].
  - unfold Recover.get_email_context. by rewrite Hnone.
  - unfold Recover.send_notification. by rewrite Hnone.
  - intros Hu. eexists. split; [by apply run_form_valid_no_match|].
    reflexivity.
Qed.

Lemma X14_no_account_no_mail_witness :
  Recover.send_notification (P:=Toy.platform)
    (Recover.as_view (mkRequest "example.com" true "/recover/"))
    (Toy.world 1 2 3 [])
  = (Raise AttributeError, Toy.world 1 2 3 []).
Proof.
  apply (X14_no_account_no_mail (P:=Toy.platform)
           (Recover.as_view (mkRequest "example.com" true "/recover/"))
           (mkForm None "nobody") (Toy.world 1 2 3 []) eq_refl).
Defined.
